(** * Weather bot: DataStorage, WeatherAPI and WeatherBotCoordinator

    A shallow embedding of [data_storage.py], [business_logic.py] and
    [app_coordinator.py], and the properties of the three handlers and of
    the history store.

    - [Unicode] holds the case mappings [str.capitalize] applies.
    - [Py] holds the Python values the bot handles (what [json.load] and
      [response.json()] return, and dicts keyed by [int] user identifiers)
      with the operations the source applies to them: [get], subscripts,
      the slice [[:5]], iteration, truth value, [==], [split], [capitalize]
      and f-string formatting.  Each raises what Python raises on a value
      of the wrong shape.
    - [Json] is [json.dump] and [json.load] at the level of documents.
    - The handlers run in a state-and-exception monad over a [world]: the
      in-memory store, the backing file, the replies sent to the chat and
      the requests sent to the weather provider.  The provider is a
      function from endpoint and city to the decoded response or the
      exception of the request.
    - [DataStorage] covers stores that are dicts, which is what
      [_load_data] binds [self.data] to when the file is absent or was
      written by [_save_data]. *)

From Stdlib Require Import ZArith NArith List String Ascii Bool Lia.
From Stdlib Require Import DecimalString DecimalPos DecimalZ.
Import ListNotations.

Set Implicit Arguments.
Set Warnings "-register-all".
Local Open Scope Z_scope.

(** ** Unicode case data

    The case mappings and case properties [str.capitalize] consults, as
    the Python runtime carries them (Unicode 14.0 in CPython 3.11).  A
    shift [(first, last, step, image)] maps [first], [first + step], ...,
    [last] to [image], [image + step], ...; a special mapping gives the
    characters one character becomes; a range [(first, last)] lists the
    characters with a property. *)

Module Unicode.

Local Open Scope N_scope.

Definition lower_shifts : list (N * N * N * N) :=
  [
   (65, 90, 1, 97); (192, 214, 1, 224); (216, 222, 1, 248); (256, 302, 2,
   257); (306, 310, 2, 307); (313, 327, 2, 314); (330, 374, 2, 331); (376,
   376, 1, 255); (377, 381, 2, 378); (385, 385, 1, 595); (386, 388, 2, 387);
   (390, 390, 1, 596); (391, 391, 1, 392); (393, 394, 1, 598); (395, 395, 1,
   396); (398, 398, 1, 477); (399, 399, 1, 601); (400, 400, 1, 603); (401,
   401, 1, 402); (403, 403, 1, 608); (404, 404, 1, 611); (406, 406, 1, 617);
   (407, 407, 1, 616); (408, 408, 1, 409); (412, 412, 1, 623); (413, 413, 1,
   626); (415, 415, 1, 629); (416, 420, 2, 417); (422, 422, 1, 640); (423,
   423, 1, 424); (425, 425, 1, 643); (428, 428, 1, 429); (430, 430, 1, 648);
   (431, 431, 1, 432); (433, 434, 1, 650); (435, 437, 2, 436); (439, 439, 1,
   658); (440, 440, 1, 441); (444, 444, 1, 445); (452, 452, 1, 454); (453,
   453, 1, 454); (455, 455, 1, 457); (456, 456, 1, 457); (458, 458, 1, 460);
   (459, 475, 2, 460); (478, 494, 2, 479); (497, 497, 1, 499); (498, 500, 2,
   499); (502, 502, 1, 405); (503, 503, 1, 447); (504, 542, 2, 505); (544,
   544, 1, 414); (546, 562, 2, 547); (570, 570, 1, 11365); (571, 571, 1,
   572); (573, 573, 1, 410); (574, 574, 1, 11366); (577, 577, 1, 578); (579,
   579, 1, 384); (580, 580, 1, 649); (581, 581, 1, 652); (582, 590, 2, 583);
   (880, 882, 2, 881); (886, 886, 1, 887); (895, 895, 1, 1011); (902, 902, 1,
   940); (904, 906, 1, 941); (908, 908, 1, 972); (910, 911, 1, 973); (913,
   929, 1, 945); (932, 939, 1, 964); (975, 975, 1, 983); (984, 1006, 2, 985);
   (1012, 1012, 1, 952); (1015, 1015, 1, 1016); (1017, 1017, 1, 1010); (1018,
   1018, 1, 1019); (1021, 1023, 1, 891); (1024, 1039, 1, 1104); (1040, 1071,
   1, 1072); (1120, 1152, 2, 1121); (1162, 1214, 2, 1163); (1216, 1216, 1,
   1231); (1217, 1229, 2, 1218); (1232, 1326, 2, 1233); (1329, 1366, 1,
   1377); (4256, 4293, 1, 11520); (4295, 4295, 1, 11559); (4301, 4301, 1,
   11565); (5024, 5103, 1, 43888); (5104, 5109, 1, 5112); (7312, 7354, 1,
   4304); (7357, 7359, 1, 4349); (7680, 7828, 2, 7681); (7838, 7838, 1, 223);
   (7840, 7934, 2, 7841); (7944, 7951, 1, 7936); (7960, 7965, 1, 7952);
   (7976, 7983, 1, 7968); (7992, 7999, 1, 7984); (8008, 8013, 1, 8000);
   (8025, 8031, 2, 8017); (8040, 8047, 1, 8032); (8072, 8079, 1, 8064);
   (8088, 8095, 1, 8080); (8104, 8111, 1, 8096); (8120, 8121, 1, 8112);
   (8122, 8123, 1, 8048); (8124, 8124, 1, 8115); (8136, 8139, 1, 8050);
   (8140, 8140, 1, 8131); (8152, 8153, 1, 8144); (8154, 8155, 1, 8054);
   (8168, 8169, 1, 8160); (8170, 8171, 1, 8058); (8172, 8172, 1, 8165);
   (8184, 8185, 1, 8056); (8186, 8187, 1, 8060); (8188, 8188, 1, 8179);
   (8486, 8486, 1, 969); (8490, 8490, 1, 107); (8491, 8491, 1, 229); (8498,
   8498, 1, 8526); (8544, 8559, 1, 8560); (8579, 8579, 1, 8580); (9398, 9423,
   1, 9424); (11264, 11311, 1, 11312); (11360, 11360, 1, 11361); (11362,
   11362, 1, 619); (11363, 11363, 1, 7549); (11364, 11364, 1, 637); (11367,
   11371, 2, 11368); (11373, 11373, 1, 593); (11374, 11374, 1, 625); (11375,
   11375, 1, 592); (11376, 11376, 1, 594); (11378, 11378, 1, 11379); (11381,
   11381, 1, 11382); (11390, 11391, 1, 575); (11392, 11490, 2, 11393);
   (11499, 11501, 2, 11500); (11506, 11506, 1, 11507); (42560, 42604, 2,
   42561); (42624, 42650, 2, 42625); (42786, 42798, 2, 42787); (42802, 42862,
   2, 42803); (42873, 42875, 2, 42874); (42877, 42877, 1, 7545); (42878,
   42886, 2, 42879); (42891, 42891, 1, 42892); (42893, 42893, 1, 613);
   (42896, 42898, 2, 42897); (42902, 42920, 2, 42903); (42922, 42922, 1,
   614); (42923, 42923, 1, 604); (42924, 42924, 1, 609); (42925, 42925, 1,
   620); (42926, 42926, 1, 618); (42928, 42928, 1, 670); (42929, 42929, 1,
   647); (42930, 42930, 1, 669); (42931, 42931, 1, 43859); (42932, 42946, 2,
   42933); (42948, 42948, 1, 42900); (42949, 42949, 1, 642); (42950, 42950,
   1, 7566); (42951, 42953, 2, 42952); (42960, 42960, 1, 42961); (42966,
   42968, 2, 42967); (42997, 42997, 1, 42998); (65313, 65338, 1, 65345);
   (66560, 66599, 1, 66600); (66736, 66771, 1, 66776); (66928, 66964, 2,
   66967); (66929, 66937, 2, 66968); (66941, 66953, 2, 66980); (66957, 66961,
   2, 66996); (66965, 66965, 1, 67004); (68736, 68786, 1, 68800); (71840,
   71871, 1, 71872); (93760, 93791, 1, 93792); (125184, 125217, 1, 125218)
  ].

Definition lower_special : list (N * list N) :=
  [
   (304, [105; 775])
  ].

Definition title_shifts : list (N * N * N * N) :=
  [
   (97, 122, 1, 65); (181, 181, 1, 924); (224, 246, 1, 192); (248, 254, 1,
   216); (255, 255, 1, 376); (257, 303, 2, 256); (305, 305, 1, 73); (307,
   311, 2, 306); (314, 328, 2, 313); (331, 375, 2, 330); (378, 382, 2, 377);
   (383, 383, 1, 83); (384, 384, 1, 579); (387, 389, 2, 386); (392, 392, 1,
   391); (396, 396, 1, 395); (402, 402, 1, 401); (405, 405, 1, 502); (409,
   409, 1, 408); (410, 410, 1, 573); (414, 414, 1, 544); (417, 421, 2, 416);
   (424, 424, 1, 423); (429, 429, 1, 428); (432, 432, 1, 431); (436, 438, 2,
   435); (441, 441, 1, 440); (445, 445, 1, 444); (447, 447, 1, 503); (452,
   452, 1, 453); (454, 454, 1, 453); (455, 455, 1, 456); (457, 457, 1, 456);
   (458, 458, 1, 459); (460, 476, 2, 459); (477, 477, 1, 398); (479, 495, 2,
   478); (497, 497, 1, 498); (499, 501, 2, 498); (505, 543, 2, 504); (547,
   563, 2, 546); (572, 572, 1, 571); (575, 576, 1, 11390); (578, 578, 1,
   577); (583, 591, 2, 582); (592, 592, 1, 11375); (593, 593, 1, 11373);
   (594, 594, 1, 11376); (595, 595, 1, 385); (596, 596, 1, 390); (598, 599,
   1, 393); (601, 601, 1, 399); (603, 603, 1, 400); (604, 604, 1, 42923);
   (608, 608, 1, 403); (609, 609, 1, 42924); (611, 611, 1, 404); (613, 613,
   1, 42893); (614, 614, 1, 42922); (616, 616, 1, 407); (617, 617, 1, 406);
   (618, 618, 1, 42926); (619, 619, 1, 11362); (620, 620, 1, 42925); (623,
   623, 1, 412); (625, 625, 1, 11374); (626, 626, 1, 413); (629, 629, 1,
   415); (637, 637, 1, 11364); (640, 640, 1, 422); (642, 642, 1, 42949);
   (643, 643, 1, 425); (647, 647, 1, 42929); (648, 648, 1, 430); (649, 649,
   1, 580); (650, 651, 1, 433); (652, 652, 1, 581); (658, 658, 1, 439); (669,
   669, 1, 42930); (670, 670, 1, 42928); (837, 837, 1, 921); (881, 883, 2,
   880); (887, 887, 1, 886); (891, 893, 1, 1021); (940, 940, 1, 902); (941,
   943, 1, 904); (945, 961, 1, 913); (962, 962, 1, 931); (963, 971, 1, 931);
   (972, 972, 1, 908); (973, 974, 1, 910); (976, 976, 1, 914); (977, 977, 1,
   920); (981, 981, 1, 934); (982, 982, 1, 928); (983, 983, 1, 975); (985,
   1007, 2, 984); (1008, 1008, 1, 922); (1009, 1009, 1, 929); (1010, 1010, 1,
   1017); (1011, 1011, 1, 895); (1013, 1013, 1, 917); (1016, 1016, 1, 1015);
   (1019, 1019, 1, 1018); (1072, 1103, 1, 1040); (1104, 1119, 1, 1024);
   (1121, 1153, 2, 1120); (1163, 1215, 2, 1162); (1218, 1230, 2, 1217);
   (1231, 1231, 1, 1216); (1233, 1327, 2, 1232); (1377, 1414, 1, 1329);
   (5112, 5117, 1, 5104); (7296, 7296, 1, 1042); (7297, 7297, 1, 1044);
   (7298, 7298, 1, 1054); (7299, 7300, 1, 1057); (7301, 7301, 1, 1058);
   (7302, 7302, 1, 1066); (7303, 7303, 1, 1122); (7304, 7304, 1, 42570);
   (7545, 7545, 1, 42877); (7549, 7549, 1, 11363); (7566, 7566, 1, 42950);
   (7681, 7829, 2, 7680); (7835, 7835, 1, 7776); (7841, 7935, 2, 7840);
   (7936, 7943, 1, 7944); (7952, 7957, 1, 7960); (7968, 7975, 1, 7976);
   (7984, 7991, 1, 7992); (8000, 8005, 1, 8008); (8017, 8023, 2, 8025);
   (8032, 8039, 1, 8040); (8048, 8049, 1, 8122); (8050, 8053, 1, 8136);
   (8054, 8055, 1, 8154); (8056, 8057, 1, 8184); (8058, 8059, 1, 8170);
   (8060, 8061, 1, 8186); (8064, 8071, 1, 8072); (8080, 8087, 1, 8088);
   (8096, 8103, 1, 8104); (8112, 8113, 1, 8120); (8115, 8115, 1, 8124);
   (8126, 8126, 1, 921); (8131, 8131, 1, 8140); (8144, 8145, 1, 8152); (8160,
   8161, 1, 8168); (8165, 8165, 1, 8172); (8179, 8179, 1, 8188); (8526, 8526,
   1, 8498); (8560, 8575, 1, 8544); (8580, 8580, 1, 8579); (9424, 9449, 1,
   9398); (11312, 11359, 1, 11264); (11361, 11361, 1, 11360); (11365, 11365,
   1, 570); (11366, 11366, 1, 574); (11368, 11372, 2, 11367); (11379, 11379,
   1, 11378); (11382, 11382, 1, 11381); (11393, 11491, 2, 11392); (11500,
   11502, 2, 11499); (11507, 11507, 1, 11506); (11520, 11557, 1, 4256);
   (11559, 11559, 1, 4295); (11565, 11565, 1, 4301); (42561, 42605, 2,
   42560); (42625, 42651, 2, 42624); (42787, 42799, 2, 42786); (42803, 42863,
   2, 42802); (42874, 42876, 2, 42873); (42879, 42887, 2, 42878); (42892,
   42892, 1, 42891); (42897, 42899, 2, 42896); (42900, 42900, 1, 42948);
   (42903, 42921, 2, 42902); (42933, 42947, 2, 42932); (42952, 42954, 2,
   42951); (42961, 42961, 1, 42960); (42967, 42969, 2, 42966); (42998, 42998,
   1, 42997); (43859, 43859, 1, 42931); (43888, 43967, 1, 5024); (65345,
   65370, 1, 65313); (66600, 66639, 1, 66560); (66776, 66811, 1, 66736);
   (66967, 67003, 2, 66928); (66968, 66976, 2, 66929); (66980, 66992, 2,
   66941); (66996, 67000, 2, 66957); (67004, 67004, 1, 66965); (68800, 68850,
   1, 68736); (71872, 71903, 1, 71840); (93792, 93823, 1, 93760); (125218,
   125251, 1, 125184)
  ].

Definition title_special : list (N * list N) :=
  [
   (223, [83; 115]); (329, [700; 78]); (496, [74; 780]); (912, [921; 776;
   769]); (944, [933; 776; 769]); (1415, [1333; 1410]); (7830, [72; 817]);
   (7831, [84; 776]); (7832, [87; 778]); (7833, [89; 778]); (7834, [65;
   702]); (8016, [933; 787]); (8018, [933; 787; 768]); (8020, [933; 787;
   769]); (8022, [933; 787; 834]); (8114, [8122; 837]); (8116, [902; 837]);
   (8118, [913; 834]); (8119, [913; 834; 837]); (8130, [8138; 837]); (8132,
   [905; 837]); (8134, [919; 834]); (8135, [919; 834; 837]); (8146, [921;
   776; 768]); (8147, [921; 776; 769]); (8150, [921; 834]); (8151, [921; 776;
   834]); (8162, [933; 776; 768]); (8163, [933; 776; 769]); (8164, [929;
   787]); (8166, [933; 834]); (8167, [933; 776; 834]); (8178, [8186; 837]);
   (8180, [911; 837]); (8182, [937; 834]); (8183, [937; 834; 837]); (64256,
   [70; 102]); (64257, [70; 105]); (64258, [70; 108]); (64259, [70; 102;
   105]); (64260, [70; 102; 108]); (64261, [83; 116]); (64262, [83; 116]);
   (64275, [1348; 1398]); (64276, [1348; 1381]); (64277, [1348; 1387]);
   (64278, [1358; 1398]); (64279, [1348; 1389])
  ].

(** The characters with the property Cased. *)
Definition cased_ranges : list (N * N) :=
  [
   (65, 90); (97, 122); (170, 170); (181, 181); (186, 186); (192, 214); (216,
   246); (248, 442); (444, 447); (452, 659); (661, 696); (704, 705); (736,
   740); (837, 837); (880, 883); (886, 887); (890, 893); (895, 895); (902,
   902); (904, 906); (908, 908); (910, 929); (931, 1013); (1015, 1153);
   (1162, 1327); (1329, 1366); (1376, 1416); (4256, 4293); (4295, 4295);
   (4301, 4301); (4304, 4346); (4349, 4351); (5024, 5109); (5112, 5117);
   (7296, 7304); (7312, 7354); (7357, 7359); (7424, 7615); (7680, 7957);
   (7960, 7965); (7968, 8005); (8008, 8013); (8016, 8023); (8025, 8025);
   (8027, 8027); (8029, 8029); (8031, 8061); (8064, 8116); (8118, 8124);
   (8126, 8126); (8130, 8132); (8134, 8140); (8144, 8147); (8150, 8155);
   (8160, 8172); (8178, 8180); (8182, 8188); (8305, 8305); (8319, 8319);
   (8336, 8348); (8450, 8450); (8455, 8455); (8458, 8467); (8469, 8469);
   (8473, 8477); (8484, 8484); (8486, 8486); (8488, 8488); (8490, 8493);
   (8495, 8500); (8505, 8505); (8508, 8511); (8517, 8521); (8526, 8526);
   (8544, 8575); (8579, 8580); (9398, 9449); (11264, 11492); (11499, 11502);
   (11506, 11507); (11520, 11557); (11559, 11559); (11565, 11565); (42560,
   42605); (42624, 42653); (42786, 42887); (42891, 42894); (42896, 42954);
   (42960, 42961); (42963, 42963); (42965, 42969); (42997, 42998); (43000,
   43002); (43824, 43866); (43868, 43880); (43888, 43967); (64256, 64262);
   (64275, 64279); (65313, 65338); (65345, 65370); (66560, 66639); (66736,
   66771); (66776, 66811); (66928, 66938); (66940, 66954); (66956, 66962);
   (66964, 66965); (66967, 66977); (66979, 66993); (66995, 67001); (67003,
   67004); (67456, 67456); (67459, 67461); (67463, 67504); (67506, 67514);
   (68736, 68786); (68800, 68850); (71840, 71903); (93760, 93823); (119808,
   119892); (119894, 119964); (119966, 119967); (119970, 119970); (119973,
   119974); (119977, 119980); (119982, 119993); (119995, 119995); (119997,
   120003); (120005, 120069); (120071, 120074); (120077, 120084); (120086,
   120092); (120094, 120121); (120123, 120126); (120128, 120132); (120134,
   120134); (120138, 120144); (120146, 120485); (120488, 120512); (120514,
   120538); (120540, 120570); (120572, 120596); (120598, 120628); (120630,
   120654); (120656, 120686); (120688, 120712); (120714, 120744); (120746,
   120770); (120772, 120779); (122624, 122633); (122635, 122654); (125184,
   125251); (127280, 127305); (127312, 127337); (127344, 127369)
  ].

(** The characters with the property Case_Ignorable. *)
Definition case_ignorable_ranges : list (N * N) :=
  [
   (39, 39); (46, 46); (58, 58); (94, 94); (96, 96); (168, 168); (173, 173);
   (175, 175); (180, 180); (183, 184); (688, 879); (884, 885); (890, 890);
   (900, 901); (903, 903); (1155, 1161); (1369, 1369); (1375, 1375); (1425,
   1469); (1471, 1471); (1473, 1474); (1476, 1477); (1479, 1479); (1524,
   1524); (1536, 1541); (1552, 1562); (1564, 1564); (1600, 1600); (1611,
   1631); (1648, 1648); (1750, 1757); (1759, 1768); (1770, 1773); (1807,
   1807); (1809, 1809); (1840, 1866); (1958, 1968); (2027, 2037); (2042,
   2042); (2045, 2045); (2070, 2093); (2137, 2139); (2184, 2184); (2192,
   2193); (2200, 2207); (2249, 2306); (2362, 2362); (2364, 2364); (2369,
   2376); (2381, 2381); (2385, 2391); (2402, 2403); (2417, 2417); (2433,
   2433); (2492, 2492); (2497, 2500); (2509, 2509); (2530, 2531); (2558,
   2558); (2561, 2562); (2620, 2620); (2625, 2626); (2631, 2632); (2635,
   2637); (2641, 2641); (2672, 2673); (2677, 2677); (2689, 2690); (2748,
   2748); (2753, 2757); (2759, 2760); (2765, 2765); (2786, 2787); (2810,
   2815); (2817, 2817); (2876, 2876); (2879, 2879); (2881, 2884); (2893,
   2893); (2901, 2902); (2914, 2915); (2946, 2946); (3008, 3008); (3021,
   3021); (3072, 3072); (3076, 3076); (3132, 3132); (3134, 3136); (3142,
   3144); (3146, 3149); (3157, 3158); (3170, 3171); (3201, 3201); (3260,
   3260); (3263, 3263); (3270, 3270); (3276, 3277); (3298, 3299); (3328,
   3329); (3387, 3388); (3393, 3396); (3405, 3405); (3426, 3427); (3457,
   3457); (3530, 3530); (3538, 3540); (3542, 3542); (3633, 3633); (3636,
   3642); (3654, 3662); (3761, 3761); (3764, 3772); (3782, 3782); (3784,
   3789); (3864, 3865); (3893, 3893); (3895, 3895); (3897, 3897); (3953,
   3966); (3968, 3972); (3974, 3975); (3981, 3991); (3993, 4028); (4038,
   4038); (4141, 4144); (4146, 4151); (4153, 4154); (4157, 4158); (4184,
   4185); (4190, 4192); (4209, 4212); (4226, 4226); (4229, 4230); (4237,
   4237); (4253, 4253); (4348, 4348); (4957, 4959); (5906, 5908); (5938,
   5939); (5970, 5971); (6002, 6003); (6068, 6069); (6071, 6077); (6086,
   6086); (6089, 6099); (6103, 6103); (6109, 6109); (6155, 6159); (6211,
   6211); (6277, 6278); (6313, 6313); (6432, 6434); (6439, 6440); (6450,
   6450); (6457, 6459); (6679, 6680); (6683, 6683); (6742, 6742); (6744,
   6750); (6752, 6752); (6754, 6754); (6757, 6764); (6771, 6780); (6783,
   6783); (6823, 6823); (6832, 6862); (6912, 6915); (6964, 6964); (6966,
   6970); (6972, 6972); (6978, 6978); (7019, 7027); (7040, 7041); (7074,
   7077); (7080, 7081); (7083, 7085); (7142, 7142); (7144, 7145); (7149,
   7149); (7151, 7153); (7212, 7219); (7222, 7223); (7288, 7293); (7376,
   7378); (7380, 7392); (7394, 7400); (7405, 7405); (7412, 7412); (7416,
   7417); (7468, 7530); (7544, 7544); (7579, 7679); (8125, 8125); (8127,
   8129); (8141, 8143); (8157, 8159); (8173, 8175); (8189, 8190); (8203,
   8207); (8216, 8217); (8228, 8228); (8231, 8231); (8234, 8238); (8288,
   8292); (8294, 8303); (8305, 8305); (8319, 8319); (8336, 8348); (8400,
   8432); (11388, 11389); (11503, 11505); (11631, 11631); (11647, 11647);
   (11744, 11775); (11823, 11823); (12293, 12293); (12330, 12333); (12337,
   12341); (12347, 12347); (12441, 12446); (12540, 12542); (40981, 40981);
   (42232, 42237); (42508, 42508); (42607, 42610); (42612, 42621); (42623,
   42623); (42652, 42655); (42736, 42737); (42752, 42785); (42864, 42864);
   (42888, 42890); (42994, 42996); (43000, 43001); (43010, 43010); (43014,
   43014); (43019, 43019); (43045, 43046); (43052, 43052); (43204, 43205);
   (43232, 43249); (43263, 43263); (43302, 43309); (43335, 43345); (43392,
   43394); (43443, 43443); (43446, 43449); (43452, 43453); (43471, 43471);
   (43493, 43494); (43561, 43566); (43569, 43570); (43573, 43574); (43587,
   43587); (43596, 43596); (43632, 43632); (43644, 43644); (43696, 43696);
   (43698, 43700); (43703, 43704); (43710, 43711); (43713, 43713); (43741,
   43741); (43756, 43757); (43763, 43764); (43766, 43766); (43867, 43871);
   (43881, 43883); (44005, 44005); (44008, 44008); (44013, 44013); (64286,
   64286); (64434, 64450); (65024, 65039); (65043, 65043); (65056, 65071);
   (65106, 65106); (65109, 65109); (65279, 65279); (65287, 65287); (65294,
   65294); (65306, 65306); (65342, 65342); (65344, 65344); (65392, 65392);
   (65438, 65439); (65507, 65507); (65529, 65531); (66045, 66045); (66272,
   66272); (66422, 66426); (67456, 67461); (67463, 67504); (67506, 67514);
   (68097, 68099); (68101, 68102); (68108, 68111); (68152, 68154); (68159,
   68159); (68325, 68326); (68900, 68903); (69291, 69292); (69446, 69456);
   (69506, 69509); (69633, 69633); (69688, 69702); (69744, 69744); (69747,
   69748); (69759, 69761); (69811, 69814); (69817, 69818); (69821, 69821);
   (69826, 69826); (69837, 69837); (69888, 69890); (69927, 69931); (69933,
   69940); (70003, 70003); (70016, 70017); (70070, 70078); (70089, 70092);
   (70095, 70095); (70191, 70193); (70196, 70196); (70198, 70199); (70206,
   70206); (70367, 70367); (70371, 70378); (70400, 70401); (70459, 70460);
   (70464, 70464); (70502, 70508); (70512, 70516); (70712, 70719); (70722,
   70724); (70726, 70726); (70750, 70750); (70835, 70840); (70842, 70842);
   (70847, 70848); (70850, 70851); (71090, 71093); (71100, 71101); (71103,
   71104); (71132, 71133); (71219, 71226); (71229, 71229); (71231, 71232);
   (71339, 71339); (71341, 71341); (71344, 71349); (71351, 71351); (71453,
   71455); (71458, 71461); (71463, 71467); (71727, 71735); (71737, 71738);
   (71995, 71996); (71998, 71998); (72003, 72003); (72148, 72151); (72154,
   72155); (72160, 72160); (72193, 72202); (72243, 72248); (72251, 72254);
   (72263, 72263); (72273, 72278); (72281, 72283); (72330, 72342); (72344,
   72345); (72752, 72758); (72760, 72765); (72767, 72767); (72850, 72871);
   (72874, 72880); (72882, 72883); (72885, 72886); (73009, 73014); (73018,
   73018); (73020, 73021); (73023, 73029); (73031, 73031); (73104, 73105);
   (73109, 73109); (73111, 73111); (73459, 73460); (78896, 78904); (92912,
   92916); (92976, 92982); (92992, 92995); (94031, 94031); (94095, 94111);
   (94176, 94177); (94179, 94180); (110576, 110579); (110581, 110587);
   (110589, 110590); (113821, 113822); (113824, 113827); (118528, 118573);
   (118576, 118598); (119143, 119145); (119155, 119170); (119173, 119179);
   (119210, 119213); (119362, 119364); (121344, 121398); (121403, 121452);
   (121461, 121461); (121476, 121476); (121499, 121503); (121505, 121519);
   (122880, 122886); (122888, 122904); (122907, 122913); (122915, 122916);
   (122918, 122922); (123184, 123197); (123566, 123566); (123628, 123631);
   (125136, 125142); (125252, 125259); (127995, 127999); (917505, 917505);
   (917536, 917631); (917760, 917999)
  ].

Fixpoint in_ranges (c : N) (rs : list (N * N)) : bool :=
  match rs with
  | [] => false
  | (first, last) :: rs' =>
      ((first <=? c) && (c <=? last)) || in_ranges c rs'
  end.

Fixpoint shifted (c : N) (t : list (N * N * N * N)) : option N :=
  match t with
  | [] => None
  | (first, last, step, image) :: t' =>
      if (first <=? c) && (c <=? last) && ((c - first) mod step =? 0)
      then Some (c + image - first)
      else shifted c t'
  end.

Fixpoint special (c : N) (t : list (N * list N)) : option (list N) :=
  match t with
  | [] => None
  | (c', s) :: t' => if c =? c' then Some s else special c t'
  end.

Definition mapped (c : N) (sp : list (N * list N)) (sh : list (N * N * N * N))
  : list N :=
  match special c sp with
  | Some s => s
  | None =>
      match shifted c sh with
      | Some c' => [c']
      | None => [c]
      end
  end.

(** The full lower-case and title-case mappings of one character. *)
Definition to_lower_full (c : N) : list N := mapped c lower_special lower_shifts.
Definition to_title_full (c : N) : list N := mapped c title_special title_shifts.

Definition is_cased (c : N) : bool := in_ranges c cased_ranges.
Definition is_case_ignorable (c : N) : bool := in_ranges c case_ignorable_ranges.

Definition capital_sigma : N := 931.
Definition small_sigma : N := 963.
Definition small_final_sigma : N := 962.

Fixpoint skip_case_ignorable (s : list N) : list N :=
  match s with
  | [] => []
  | c :: s' => if is_case_ignorable c then skip_case_ignorable s' else s
  end.

(** A capital sigma is final when a cased character comes before it and
    none comes after it, case-ignorable characters aside.  [before] holds
    the characters before it, the nearest first. *)
Definition final_sigma (before after : list N) : bool :=
  match skip_case_ignorable before with
  | [] => false
  | c :: _ =>
      is_cased c
      && match skip_case_ignorable after with
         | [] => true
         | c' :: _ => negb (is_cased c')
         end
  end.

(** The lower case of the characters [s] of a string that come after the
    characters [before] (the nearest first). *)
Fixpoint lower_from (before s : list N) : list N :=
  match s with
  | [] => []
  | c :: s' =>
      (if c =? capital_sigma
       then [if final_sigma before s' then small_final_sigma else small_sigma]
       else to_lower_full c)
      ++ lower_from (c :: before) s'
  end.

End Unicode.

(** ** Python strings and values *)

Module Py.

(** A Python [str] is a sequence of Unicode code points. *)
Definition str := list N.

(** An ASCII literal of the source, as a [str]. *)
Definition lit (s : string) : str :=
  List.map N_of_ascii (list_ascii_of_string s).

Definition str_eqb (a b : str) : bool :=
  if list_eq_dec N.eq_dec a b then true else false.

(** Keys of the dictionaries the bot handles: [int] user identifiers in
    the in-memory store, [str] everywhere else.  [1] and ["1"] are
    different keys. *)
Inductive pykey :=
| KInt (n : Z)
| KStr (s : str).

Definition pykey_eqb (a b : pykey) : bool :=
  match a, b with
  | KInt n, KInt m => Z.eqb n m
  | KStr s, KStr t => str_eqb s t
  | _, _ => false
  end.

(** The values [json.load] and [response.json()] produce, and the store
    built from them.  A [float] is identified by its [repr], the shortest
    decimal text that reads back to the same float.  A [dict] keeps its
    keys in insertion order. *)
Inductive value :=
| VNone
| VBool (b : bool)
| VInt (n : Z)
| VFloat (repr : str)
| VStr (s : str)
| VList (l : list value)
| VDict (d : list (pykey * value)).

Definition pydict := list (pykey * value).

(** The exceptions that can leave a handler. *)
Inductive exn :=
| KeyError
| IndexError
| TypeError
| AttributeError
| FileNotFoundError
| PermissionError
| JSONDecodeError
| RequestException.

Inductive result (A : Type) :=
| Ok (a : A)
| Raise (e : exn).
Arguments Ok {A} a.
Arguments Raise {A} e.

(** *** dict operations *)

(** [d.get(k)] as an option; [k in d] *)
Fixpoint dict_get (d : pydict) (k : pykey) : option value :=
  match d with
  | [] => None
  | (k', v) :: d' => if pykey_eqb k k' then Some v else dict_get d' k
  end.

Definition dict_contains (d : pydict) (k : pykey) : bool :=
  match dict_get d k with Some _ => true | None => false end.

(** [d[k] = v]: an existing key keeps its position, a new key goes last. *)
Fixpoint dict_set (d : pydict) (k : pykey) (v : value) : pydict :=
  match d with
  | [] => [(k, v)]
  | (k', v') :: d' =>
      if pykey_eqb k k' then (k', v) :: d' else (k', v') :: dict_set d' k v
  end.

(** [dict(pairs)]: later pairs overwrite earlier ones *)
Definition dict_of_pairs (l : list (pykey * value)) : pydict :=
  fold_left (fun acc kv => dict_set acc (fst kv) (snd kv)) l [].

(** *** attribute and item access on arbitrary values *)

(** [v.get(k, default)]: only a dict has a [get] method. *)
Definition method_get (v : value) (k : str) (default : value) : result value :=
  match v with
  | VDict d =>
      match dict_get d (KStr k) with
      | Some x => Ok x
      | None => Ok default
      end
  | _ => Raise AttributeError
  end.

(** [v['k']] *)
Definition getitem_str (v : value) (k : str) : result value :=
  match v with
  | VDict d =>
      match dict_get d (KStr k) with
      | Some x => Ok x
      | None => Raise KeyError
      end
  | _ => Raise TypeError
  end.

(** [v[0]] *)
Definition getitem_0 (v : value) : result value :=
  match v with
  | VDict d =>
      match dict_get d (KInt 0) with
      | Some x => Ok x
      | None => Raise KeyError
      end
  | VList [] => Raise IndexError
  | VList (x :: _) => Ok x
  | VStr [] => Raise IndexError
  | VStr (c :: _) => Ok (VStr [c])
  | _ => Raise TypeError
  end.

(** [v[:5]]: lists and strings can be sliced; a dict rejects the slice as
    a key, the other values are not subscriptable. *)
Definition slice_5 (v : value) : result value :=
  match v with
  | VList l => Ok (VList (firstn 5 l))
  | VStr s => Ok (VStr (firstn 5 s))
  | _ => Raise TypeError
  end.

Definition value_of_key (k : pykey) : value :=
  match k with
  | KInt n => VInt n
  | KStr s => VStr s
  end.

(** [for x in v]: the elements of a list, the characters of a string, the
    keys of a dict. *)
Definition py_iter (v : value) : result (list value) :=
  match v with
  | VList l => Ok l
  | VStr s => Ok (List.map (fun c => VStr [c]) s)
  | VDict d => Ok (List.map (fun kv => value_of_key (fst kv)) d)
  | _ => Raise TypeError
  end.

(** Truth value of [v], as tested by [if not v]. *)
Definition truthy (v : value) : bool :=
  match v with
  | VNone => false
  | VBool b => b
  | VInt n => negb (Z.eqb n 0)
  | VFloat r => negb (str_eqb r (lit "0.0") || str_eqb r (lit "-0.0"))
  | VStr s => match s with [] => false | _ => true end
  | VList l => match l with [] => false | _ => true end
  | VDict d => match d with [] => false | _ => true end
  end.

(** [v == 200]: an [int] 200, or the [float] 200.0 whose repr is ["200.0"]
    ([True] and [False] compare as 1 and 0). *)
Definition eq_200 (v : value) : bool :=
  match v with
  | VInt n => Z.eqb n 200
  | VFloat r => str_eqb r (lit "200.0")
  | _ => false
  end.

(** [v == "200"] *)
Definition eq_str (v : value) (s : str) : bool :=
  match v with
  | VStr t => str_eqb t s
  | _ => false
  end.

(** *** text *)

(** [str(n)] for an [int] *)
Definition str_of_int (n : Z) : str :=
  lit (NilZero.string_of_int (Z.to_int n)).

(** [sep.join(parts)] *)
Fixpoint join (sep : str) (parts : list str) : str :=
  match parts with
  | [] => []
  | [p] => p
  | p :: ps => p ++ sep ++ join sep ps
  end.

Definition newline : str := [10%N].
Definition degree_sign : str := [176%N].

(** Whitespace as [str.split] sees it: the ASCII separators and the
    Unicode code points with the White_Space property or bidirectional
    type WS, B or S. *)
Definition isspace (c : N) : bool :=
  ((9 <=? c) && (c <=? 13) || (28 <=? c) && (c <=? 32)
   || (c =? 133) || (c =? 160) || (c =? 5760)
   || (8192 <=? c) && (c <=? 8202)
   || (c =? 8232) || (c =? 8233) || (c =? 8239) || (c =? 8287)
   || (c =? 12288))%N.

Fixpoint skip_space (s : str) : str :=
  match s with
  | [] => []
  | c :: s' => if isspace c then skip_space s' else s
  end.

(** The longest prefix without whitespace, and what follows it. *)
Fixpoint span_word (s : str) : str * str :=
  match s with
  | [] => ([], [])
  | c :: s' =>
      if isspace c then ([], s)
      else let (w, r) := span_word s' in (c :: w, r)
  end.

(** [s.split(maxsplit=1)]: leading whitespace is dropped, the first word
    is cut at the next whitespace, and what follows the separating
    whitespace, if anything, is kept whole (trailing whitespace included). *)
Definition split_maxsplit_1 (s : str) : list str :=
  match skip_space s with
  | [] => []
  | s1 =>
      let (w, r) := span_word s1 in
      match skip_space r with
      | [] => [w]
      | r' => [w; r']
      end
  end.




(** [s.capitalize()]: the first character in title case, every other
    character in lower case, a capital sigma in the form its place in the
    string asks for. *)
Definition capitalize (s : str) : str :=
  match s with
  | [] => []
  | c :: rest => Unicode.to_title_full c ++ Unicode.lower_from [c] rest
  end.

(** What the bot takes from the Python runtime and is left open here: the
    text [str()] gives for a list or a dict. *)
Class Runtime := {
  container_str : value -> str
}.

Section WithRuntime.
Context {R : Runtime}.

(** [v.capitalize()]: only a [str] has the method. *)
Definition method_capitalize (v : value) : result str :=
  match v with
  | VStr s => Ok (capitalize s)
  | _ => Raise AttributeError
  end.

(** [f"{v}"], that is [str(v)] *)
Definition format (v : value) : str :=
  match v with
  | VNone => lit "None"
  | VBool true => lit "True"
  | VBool false => lit "False"
  | VInt n => str_of_int n
  | VFloat r => r
  | VStr s => s
  | VList _ | VDict _ => container_str v
  end.

End WithRuntime.

End Py.

Import Py.

(** ** The [json] module, at the level of documents *)

Module Json.

(** A JSON document.  An object is the sequence of its members as written;
    a member name may occur more than once. *)
Inductive json :=
| JNull
| JBool (b : bool)
| JInt (n : Z)
| JFloat (repr : str)
| JString (s : str)
| JArray (l : list json)
| JObject (m : list (str * json)).

(** A dict key as [json.dump] writes it: every key becomes a string. *)
Definition key_text (k : pykey) : str :=
  match k with
  | KInt n => str_of_int n
  | KStr s => s
  end.

(** [json.dump]: the document written for a value. *)
Fixpoint dump (v : value) : json :=
  match v with
  | VNone => JNull
  | VBool b => JBool b
  | VInt n => JInt n
  | VFloat r => JFloat r
  | VStr s => JString s
  | VList l => JArray (List.map dump l)
  | VDict d => JObject (List.map (fun kv => (key_text (fst kv), dump (snd kv))) d)
  end.

(** [json.load]: the value read from a document.  Objects become dicts
    with [str] keys; of two members with one name the later one wins. *)
Fixpoint load (j : json) : value :=
  match j with
  | JNull => VNone
  | JBool b => VBool b
  | JInt n => VInt n
  | JFloat r => VFloat r
  | JString s => VStr s
  | JArray l => VList (List.map load l)
  | JObject m =>
      VDict (dict_of_pairs (List.map (fun kj => (KStr (fst kj), load (snd kj))) m))
  end.

End Json.

(** ** The world a handler runs in *)

(** The backing file of the store, as [open] and [json.load] see it. *)
Inductive file_state :=
| Missing                        (* no such file *)
| Denied                         (* the file exists, access is refused *)
| Garbage                        (* the file opens, its text is not JSON *)
| Document (j : Json.json).      (* the file opens and holds this document *)

Inductive endpoint := CurrentWeather | Forecast.

Record world := mkWorld {
  data : pydict;                       (* DataStorage.data *)
  file : file_state;                   (* the file DataStorage.filename names *)
  replies : list str;                  (* texts sent with reply_text, oldest first *)
  requests : list (endpoint * str)     (* GET requests sent to the provider *)
}.

Definition set_data (w : world) (d : pydict) : world :=
  mkWorld d (file w) (replies w) (requests w).
Definition set_file (w : world) (f : file_state) : world :=
  mkWorld (data w) f (replies w) (requests w).
Definition add_reply (w : world) (t : str) : world :=
  mkWorld (data w) (file w) (replies w ++ [t]) (requests w).
Definition add_request (w : world) (e : endpoint) (city : str) : world :=
  mkWorld (data w) (file w) (replies w) (requests w ++ [(e, city)]).

(** Computations that read and change the world and may raise; what was
    changed before an exception stays changed. *)
Definition M (A : Type) := world -> result A * world.

Definition ret {A} (a : A) : M A := fun w => (Ok a, w).
Definition raise {A} (e : exn) : M A := fun w => (Raise e, w).
Definition bind {A B} (m : M A) (f : A -> M B) : M B :=
  fun w =>
    match m w with
    | (Ok a, w') => f a w'
    | (Raise e, w') => (Raise e, w')
    end.
Definition lift {A} (r : result A) : M A := fun w => (r, w).

Declare Scope monad_scope.
Delimit Scope monad_scope with monad.
Notation "x <- m ;; k" := (bind m (fun x => k))
  (at level 61, m at next level, right associativity) : monad_scope.
Notation "m ;; k" := (bind m (fun _ => k))
  (at level 61, right associativity) : monad_scope.
Local Open Scope monad_scope.

(** [for x in l: ys.append(body x)] with a body that only computes: the
    collected results, or the first exception. *)
Fixpoint traverse {A B} (body : A -> result B) (l : list A) : result (list B) :=
  match l with
  | [] => Ok []
  | x :: l' =>
      match body x with
      | Raise e => Raise e
      | Ok y =>
          match traverse body l' with
          | Raise e => Raise e
          | Ok ys => Ok (y :: ys)
          end
      end
  end.

(** Sequencing of computations that only compute. *)
Definition and_then {A B} (r : result A) (f : A -> result B) : result B :=
  match r with
  | Ok a => f a
  | Raise e => Raise e
  end.

(** ** data_storage.py *)

Module DataStorage.

(** [open(self.filename, 'r')]: the text of the file, here the document
    it spells if it spells one. *)
Definition open_read (f : file_state) : result (option Json.json) :=
  match f with
  | Missing => Raise FileNotFoundError
  | Denied => Raise PermissionError
  | Garbage => Ok None
  | Document j => Ok (Some j)
  end.

(** [json.load(file)] *)
Definition json_load (text : option Json.json) : result value :=
  match text with
  | None => Raise JSONDecodeError
  | Some j => Ok (Json.load j)
  end.

(** [_load_data]: the value [self.data] is bound to, or the exception that
    leaves the constructor.  The [try] catches [FileNotFoundError] only. *)
Definition _load_data (f : file_state) : result value :=
  match and_then (open_read f) json_load with
  | Raise FileNotFoundError => Ok (VDict [])
  | r => r
  end.

(** [_save_data]: rewrite the whole file from [self.data]. *)
Definition _save_data : M unit := fun w =>
  match file w with
  | Denied => (Raise PermissionError, w)
  | _ => (Ok tt, set_file w (Document (Json.dump (VDict (data w)))))
  end.

(** The entry [{'city': city, 'weather': weather}] *)
Definition entry (city : str) (weather : value) : value :=
  VDict [(KStr (lit "city"), VStr city); (KStr (lit "weather"), weather)].

(** [self.data[user_id].append(e)]: the list stored under the key grows in
    place; anything else stored there has no [append]. *)
Definition append_to (user_id : Z) (e : value) : M unit := fun w =>
  match dict_get (data w) (KInt user_id) with
  | Some (VList h) =>
      (Ok tt, set_data w (dict_set (data w) (KInt user_id) (VList (h ++ [e]))))
  | Some _ => (Raise AttributeError, w)
  | None => (Raise KeyError, w)
  end.

Definition save_weather_request (user_id : Z) (city : str) (weather : value)
  : M unit :=
  (fun w =>
     if dict_contains (data w) (KInt user_id) then (Ok tt, w)
     else (Ok tt, set_data w (dict_set (data w) (KInt user_id) (VList []))));;
  append_to user_id (entry city weather);;
  _save_data.

(** [get_user_history]: [self.data.get(user_id, [])] *)
Definition get_user_history (d : pydict) (user_id : Z) : value :=
  match dict_get d (KInt user_id) with
  | Some h => h
  | None => VList []
  end.

End DataStorage.

(** ** business_logic.py *)

Module WeatherAPI.

(** What a GET request to an endpoint for a city comes back with once
    [response.json()] has decoded it, or the exception the request or the
    decoding raised. *)
Definition provider := endpoint -> str -> result value.

Definition get_weather_by_city (p : provider) (city : str) : M value :=
  fun w => (p CurrentWeather city, add_request w CurrentWeather city).

Definition get_forecast_by_city (p : provider) (city : str) : M value :=
  fun w => (p Forecast city, add_request w Forecast city).

End WeatherAPI.

(** ** app_coordinator.py *)

Module Coordinator.

(** What a handler reads from the [Update] it is given. *)
Record update := mkUpdate {
  effective_user_id : Z;      (* update.effective_user.id *)
  message_text : str          (* update.message.text *)
}.

(** [update.message.reply_text(t)] *)
Definition reply_text (t : str) : M unit := fun w => (Ok tt, add_reply w t).

Definition history_empty_text : str := lit "Your history is empty!".
Definition weather_failure_text : str :=
  lit "Failed to get weather data. Please check the city name.".
Definition usage_hint_text : str :=
  lit "Please provide a city name, e.g., /forecast Moscow".
Definition forecast_failure_text : str :=
  lit "Failed to get forecast data. Please check the city name.".
Definition no_description : str := lit "No description".
Definition no_temperature : str := lit "No temperature data".
Definition no_timestamp : str := lit "N/A".

Section WithRuntime.
Context {R : Runtime}.

(** The body of the loop of [handle_history]: the line for one entry. *)
Definition history_line (e : value) : result str :=
  and_then (getitem_str e (lit "city")) (fun city =>
  and_then (getitem_str e (lit "weather")) (fun weather =>
  and_then (method_get weather (lit "weather") (VList [VDict []])) (fun ws =>
  and_then (getitem_0 ws) (fun w0 =>
  and_then (method_get w0 (lit "description") (VStr no_description))
    (fun description =>
  and_then (method_get weather (lit "main") (VDict [])) (fun main =>
  and_then (method_get main (lit "temp") (VStr no_temperature)) (fun temp =>
  Ok (lit "City: " ++ format city ++ lit ", Description: "
      ++ format description ++ lit ", Temp: " ++ format temp
      ++ degree_sign ++ lit "C")))))))).

Definition handle_history (u : update) : M unit :=
  let user_id := effective_user_id u in
  fun w =>
    let history := DataStorage.get_user_history (data w) user_id in
    if negb (truthy history) then reply_text history_empty_text w
    else
      (entries <- lift (py_iter history) ;;
       messages <- lift (traverse history_line entries) ;;
       reply_text (join newline messages)) w.

(** The reply of [handle_message] on success. *)
Definition weather_text (text : str) (description : value) (temperature : value)
  : result str :=
  and_then (method_capitalize description) (fun d =>
  Ok (lit "Weather in " ++ text ++ lit ":" ++ newline
      ++ d ++ newline
      ++ lit "Temperature: " ++ format temperature ++ degree_sign ++ lit "C"
      ++ newline)).

Definition handle_message (p : WeatherAPI.provider) (u : update) : M unit :=
  let text := message_text u in
  let user_id := effective_user_id u in
  weather <- WeatherAPI.get_weather_by_city p text ;;
  cod <- lift (method_get weather (lit "cod") VNone) ;;
  if negb (eq_200 cod) then reply_text weather_failure_text
  else
    ws <- lift (getitem_str weather (lit "weather")) ;;
    w0 <- lift (getitem_0 ws) ;;
    description <- lift (getitem_str w0 (lit "description")) ;;
    main <- lift (getitem_str weather (lit "main")) ;;
    temperature <- lift (getitem_str main (lit "temp")) ;;
    DataStorage.save_weather_request user_id text weather ;;
    t <- lift (weather_text text description temperature) ;;
    reply_text t.

(** The body of the loop of [handle_forecast]: the line for one point. *)
Definition forecast_line (forecast : value) : result str :=
  and_then (method_get forecast (lit "dt_txt") (VStr no_timestamp)) (fun dt_txt =>
  and_then (getitem_str forecast (lit "weather")) (fun ws =>
  and_then (getitem_0 ws) (fun w0 =>
  and_then (getitem_str w0 (lit "description")) (fun description =>
  and_then (getitem_str forecast (lit "main")) (fun main =>
  and_then (getitem_str main (lit "temp")) (fun temperature =>
  and_then (method_capitalize description) (fun d =>
  Ok (format dt_txt ++ lit ": " ++ d ++ lit ", Temp: "
      ++ format temperature ++ degree_sign ++ lit "C")))))))).

Definition forecast_header (city : str) : str :=
  lit "Weather forecast for " ++ city ++ lit ":".

Definition handle_forecast (p : WeatherAPI.provider) (u : update) : M unit :=
  match split_maxsplit_1 (message_text u) with
  | _ :: city :: _ =>
      forecast_data <- WeatherAPI.get_forecast_by_city p city ;;
      cod <- lift (method_get forecast_data (lit "cod") VNone) ;;
      if negb (eq_str cod (lit "200")) then reply_text forecast_failure_text
      else
        forecast_list <- lift (method_get forecast_data (lit "list") (VList [])) ;;
        first_five <- lift (slice_5 forecast_list) ;;
        points <- lift (py_iter first_five) ;;
        lines <- lift (traverse forecast_line points) ;;
        reply_text (join newline (forecast_header city :: lines))
  | _ => reply_text usage_hint_text
  end.

(** The events the transport hands to the coordinator, each with the
    answers the provider gives while it is handled. *)
Inductive event :=
| TextMessage (p : WeatherAPI.provider) (u : update)
| HistoryCommand (u : update)
| ForecastCommand (p : WeatherAPI.provider) (u : update).

Definition handle (e : event) : M unit :=
  match e with
  | TextMessage p u => handle_message p u
  | HistoryCommand u => handle_history u
  | ForecastCommand p u => handle_forecast p u
  end.

(** The world after a sequence of events; an exception ends the handler it
    leaves, not the bot. *)
Definition run (es : list event) (w : world) : world :=
  fold_left (fun w e => snd (handle e w)) es w.

End WithRuntime.

End Coordinator.

(** A runtime to evaluate the handlers with where no list or dict is put
    into a text; the theorems below hold for every runtime. *)
Definition ascii_runtime : Runtime :=
  {| container_str := fun _ => lit "[...]" |}.

(** A store as [save_weather_request] builds it: every key holds a list. *)
Definition history_store (d : pydict) : Prop :=
  forall k v, dict_get d k = Some v -> exists h, v = VList h.

(** The entries recorded for a user. *)
Definition entries_of (d : pydict) (user_id : Z) : list value :=
  match dict_get d (KInt user_id) with
  | Some (VList h) => h
  | _ => []
  end.

(** [d.get(k, default)] on a dict. *)
Definition field (d : pydict) (k : string) (default : value) : value :=
  match dict_get d (KStr (lit k)) with
  | Some x => x
  | None => default
  end.

(** The two lookups of [handle_message] between the status test and the
    write to the store: description and temperature. *)
Definition message_fields (weather : value) : result (value * value) :=
  and_then (getitem_str weather (lit "weather")) (fun ws =>
  and_then (getitem_0 ws) (fun w0 =>
  and_then (getitem_str w0 (lit "description")) (fun description =>
  and_then (getitem_str weather (lit "main")) (fun main =>
  and_then (getitem_str main (lit "temp")) (fun temperature =>
  Ok (description, temperature)))))).

(** A call of [save_weather_request] and the world after a sequence of
    calls. *)
Definition save_call := (Z * str * value)%type.
Definition caller (c : save_call) : Z := fst (fst c).

Definition after_saves (cs : list save_call) (w : world) : world :=
  fold_left
    (fun w c =>
       snd (DataStorage.save_weather_request (caller c) (snd (fst c)) (snd c) w))
    cs w.

(** The values a JSON document holds as they are: every dict key is a
    string and no dict has a key twice. *)
Fixpoint distinct_str_keys (ks : list pykey) : bool :=
  match ks with
  | [] => true
  | KStr s :: ks' =>
      negb (existsb (pykey_eqb (KStr s)) ks') && distinct_str_keys ks'
  | KInt _ :: _ => false
  end.

Fixpoint json_shaped (v : value) : bool :=
  match v with
  | VList l => forallb json_shaped l
  | VDict d =>
      distinct_str_keys (List.map fst d)
      && forallb (fun kv => json_shaped (snd kv)) d
  | _ => true
  end.

(** Induction on values, with the property for the elements of a list
    and of a dict at hand. *)
Section ValueInduction.
Variable P : value -> Prop.
Hypothesis HNone : P VNone.
Hypothesis HBool : forall b, P (VBool b).
Hypothesis HInt : forall n, P (VInt n).
Hypothesis HFloat : forall r, P (VFloat r).
Hypothesis HStr : forall s, P (VStr s).
Hypothesis HList : forall l, Forall P l -> P (VList l).
Hypothesis HDict : forall d, Forall (fun kv => P (snd kv)) d -> P (VDict d).

Fixpoint value_nested_ind (v : value) : P v :=
  match v with
  | VNone => HNone
  | VBool b => HBool b
  | VInt n => HInt n
  | VFloat r => HFloat r
  | VStr s => HStr s
  | VList l =>
      HList
        ((fix elements (l : list value) : Forall P l :=
            match l with
            | [] => Forall_nil P
            | x :: l' => Forall_cons x (value_nested_ind x) (elements l')
            end) l)
  | VDict d =>
      HDict
        ((fix members (d : list (pykey * value))
            : Forall (fun kv => P (snd kv)) d :=
            match d with
            | [] => Forall_nil _
            | (k, x) :: d' =>
                Forall_cons (k, x) (value_nested_ind x) (members d')
            end) d)
  end.

End ValueInduction.

(** Induction on documents, with the property for the elements of an
    array and the members of an object at hand. *)
Section JsonInduction.
Variable P : Json.json -> Prop.
Hypothesis HNull : P Json.JNull.
Hypothesis HBool : forall b, P (Json.JBool b).
Hypothesis HInt : forall n, P (Json.JInt n).
Hypothesis HFloat : forall r, P (Json.JFloat r).
Hypothesis HString : forall s, P (Json.JString s).
Hypothesis HArray : forall l, Forall P l -> P (Json.JArray l).
Hypothesis HObject :
  forall m, Forall (fun kj => P (snd kj)) m -> P (Json.JObject m).

Fixpoint json_nested_ind (j : Json.json) : P j :=
  match j with
  | Json.JNull => HNull
  | Json.JBool b => HBool b
  | Json.JInt n => HInt n
  | Json.JFloat r => HFloat r
  | Json.JString s => HString s
  | Json.JArray l =>
      HArray
        ((fix elements (l : list Json.json) : Forall P l :=
            match l with
            | [] => Forall_nil P
            | x :: l' => Forall_cons x (json_nested_ind x) (elements l')
            end) l)
  | Json.JObject m =>
      HObject
        ((fix members (m : list (str * Json.json))
            : Forall (fun kj => P (snd kj)) m :=
            match m with
            | [] => Forall_nil _
            | (k, x) :: m' =>
                Forall_cons (k, x) (json_nested_ind x) (members m')
            end) m)
  end.

End JsonInduction.

(** A store as the running bot builds it: [int] keys only. *)
Definition int_keyed (d : pydict) : bool :=
  forallb (fun kv => match fst kv with KInt _ => true | KStr _ => false end) d.

(** The same store with every key replaced by the text [json.dump] writes
    for it. *)
Definition with_text_keys (d : pydict) : pydict :=
  List.map (fun kv => (KStr (Json.key_text (fst kv)), snd kv)) d.

(** The entry an event records for a user: the one of a text message of
    that user whose response carries the status 200 and the fields the
    reply shows; no other event records anything. *)
Definition recorded_by (e : Coordinator.event) (user_id : Z) : list value :=
  match e with
  | Coordinator.TextMessage p u =>
      match p CurrentWeather (Coordinator.message_text u) with
      | Ok (VDict d) =>
          if eq_200 (field d "cod" VNone) then
            match message_fields (VDict d) with
            | Ok _ =>
                if Z.eqb (Coordinator.effective_user_id u) user_id
                then [DataStorage.entry (Coordinator.message_text u) (VDict d)]
                else []
            | Raise _ => []
            end
          else []
      | _ => []
      end
  | _ => []
  end.

(** *** Payloads used below *)

(** [{"cod": 200}] *)
Definition payload_status_only : value :=
  VDict [(KStr (lit "cod"), VInt 200)].

(** [{"cod": 200, "weather": [{}], "main": {"temp": 5}}]: no description *)
Definition payload_without_description : value :=
  VDict [(KStr (lit "cod"), VInt 200);
         (KStr (lit "weather"), VList [VDict []]);
         (KStr (lit "main"), VDict [(KStr (lit "temp"), VInt 5)])].

(** [{"weather": []}]: a stored payload with an empty weather list *)
Definition payload_empty_weather_list : value :=
  VDict [(KStr (lit "weather"), VList [])].

(** [{"cod": "200", "list": [{"weather": [{"description": "rain"}],
    "main": {}}]}]: a forecast point without temperature *)
Definition forecast_without_temperature : value :=
  VDict [(KStr (lit "cod"), VStr (lit "200"));
         (KStr (lit "list"),
          VList [VDict [(KStr (lit "weather"),
                         VList [VDict [(KStr (lit "description"),
                                        VStr (lit "rain"))]]);
                        (KStr (lit "main"), VDict [])]])].

(** The response of the Paris scenario:
    [{"cod": 200, "weather": [{"description": "clear sky"}],
      "main": {"temp": 18.5}}] *)
Definition paris_payload : value :=
  VDict [(KStr (lit "cod"), VInt 200);
         (KStr (lit "weather"),
          VList [VDict [(KStr (lit "description"), VStr (lit "clear sky"))]]);
         (KStr (lit "main"), VDict [(KStr (lit "temp"), VFloat (lit "18.5"))])].

(** A forecast point that can be rendered, and a response with seven of
    them. *)
Definition sample_point : value :=
  VDict [(KStr (lit "dt_txt"), VStr (lit "2024-05-01 12:00:00"));
         (KStr (lit "weather"),
          VList [VDict [(KStr (lit "description"), VStr (lit "light rain"))]]);
         (KStr (lit "main"), VDict [(KStr (lit "temp"), VInt 7)])].

Definition sample_forecast : value :=
  VDict [(KStr (lit "cod"), VStr (lit "200"));
         (KStr (lit "list"), VList (repeat sample_point 7))].

(** Providers that answer every request with one response. *)
Definition always (v : value) : WeatherAPI.provider := fun _ _ => Ok v.

(** Worlds to start from: nothing stored, and one entry stored for user 7. *)
Definition empty_world : world := mkWorld [] Missing [] [].

Definition sample_world : world :=
  mkWorld [(KInt 7, VList [DataStorage.entry (lit "Oslo") payload_status_only])]
    Missing [] [].

(** Updates from user 7: a city name, a forecast command without and
    with a city. *)
Definition paris_message : Coordinator.update :=
  Coordinator.mkUpdate 7 (lit "Paris").

Definition bare_forecast_command : Coordinator.update :=
  Coordinator.mkUpdate 7 (lit "/forecast  ").

Definition oslo_forecast_command : Coordinator.update :=
  Coordinator.mkUpdate 7 (lit "/forecast Oslo").

(** [{"cod": 200, "weather": [{"description": null}], "main": {"temp": 5}}]:
    every field is there, the description is not a string *)
Definition payload_null_description : value :=
  VDict [(KStr (lit "cod"), VInt 200);
         (KStr (lit "weather"), VList [VDict [(KStr (lit "description"), VNone)]]);
         (KStr (lit "main"), VDict [(KStr (lit "temp"), VInt 5)])].

(** A forecast command for a city of two words, with a space after it. *)
Definition new_york_forecast_command : Coordinator.update :=
  Coordinator.mkUpdate 7 (lit "/forecast New York ").

(** A world whose file cannot be written, and one whose store was read
    from a file. *)
Definition read_only_world : world := mkWorld [] Denied [] [].

Definition restarted_world : world :=
  mkWorld
    [(KStr (lit "7"), VList [DataStorage.entry (lit "Oslo") payload_status_only])]
    Missing [] [].

(** * Properties *)

(** ** Strings and keys *)

Lemma str_eqb_eq a b : str_eqb a b = true <-> a = b.
Proof.
  unfold str_eqb. destruct (list_eq_dec N.eq_dec a b); split; congruence.
Qed.

Lemma str_eqb_refl a : str_eqb a a = true.
Proof. now apply str_eqb_eq. Qed.

Lemma pykey_eqb_eq a b : pykey_eqb a b = true <-> a = b.
Proof.
  destruct a, b; simpl; try (split; congruence).
  - rewrite Z.eqb_eq. split; congruence.
  - rewrite str_eqb_eq. split; congruence.
Qed.

Lemma pykey_eqb_refl a : pykey_eqb a a = true.
Proof. now apply pykey_eqb_eq. Qed.

Lemma pykey_eqb_neq a b : pykey_eqb a b = false <-> a <> b.
Proof.
  rewrite <- pykey_eqb_eq. destruct (pykey_eqb a b); split; congruence.
Qed.

(** ** Dictionaries *)

Lemma dict_get_set_same d k v : dict_get (dict_set d k v) k = Some v.
Proof.
  induction d as [|[k' v'] d IH]; simpl.
  - now rewrite pykey_eqb_refl.
  - destruct (pykey_eqb k k') eqn:E; simpl; rewrite E; auto.
Qed.

Lemma dict_get_set_other d k k' v :
  k' <> k -> dict_get (dict_set d k v) k' = dict_get d k'.
Proof.
  intros Hne. induction d as [|[k0 v0] d IH]; simpl.
  - apply pykey_eqb_neq in Hne. now rewrite Hne.
  - destruct (pykey_eqb k k0) eqn:E; simpl.
    + apply pykey_eqb_eq in E. subst k0.
      apply pykey_eqb_neq in Hne. now rewrite Hne.
    + now rewrite IH.
Qed.

Lemma dict_set_set d k a b : dict_set (dict_set d k a) k b = dict_set d k b.
Proof.
  induction d as [|[k0 v0] d IH]; simpl.
  - now rewrite pykey_eqb_refl.
  - destruct (pykey_eqb k k0) eqn:E; simpl; rewrite E; auto.
    now rewrite IH.
Qed.

Lemma history_store_set d k h :
  history_store d -> history_store (dict_set d k (VList h)).
Proof.
  intros Hd k' v. destruct (pykey_eqb k' k) eqn:E.
  - apply pykey_eqb_eq in E. subst k'. rewrite dict_get_set_same.
    intros [= <-]. now exists h.
  - apply pykey_eqb_neq in E. rewrite dict_get_set_other by assumption.
    apply Hd.
Qed.

(** ** Loops *)

Lemma traverse_Forall2 {A B} (f : A -> result B) l ys :
  traverse f l = Ok ys -> Forall2 (fun x y => f x = Ok y) l ys.
Proof.
  revert ys. induction l as [|x l IH]; simpl; intros ys H.
  - injection H as <-. constructor.
  - destruct (f x) as [y|e] eqn:Ex; [|discriminate].
    destruct (traverse f l) as [ys'|e]; [|discriminate].
    injection H as <-. constructor; auto.
Qed.

Lemma traverse_length {A B} (f : A -> result B) l ys :
  traverse f l = Ok ys -> List.length ys = List.length l.
Proof.
  intros H. apply traverse_Forall2 in H.
  induction H; simpl; congruence.
Qed.

Lemma traverse_total {A B} (f : A -> result B) l :
  (forall x, In x l -> exists y, f x = Ok y) ->
  exists ys, traverse f l = Ok ys.
Proof.
  induction l as [|x l IH]; simpl; intros H.
  - now exists [].
  - destruct (H x) as [y Hy]; [now left|]. rewrite Hy.
    destruct IH as [ys Hys]; [intros; apply H; now right|].
    rewrite Hys. now exists (y :: ys).
Qed.


(** ** Splitting the command text *)

Lemma skip_space_app pre s :
  forallb isspace pre = true -> skip_space (pre ++ s) = skip_space s.
Proof.
  induction pre as [|c pre IH]; simpl; auto.
  intros H. apply andb_prop in H as [Hc Hpre]. rewrite Hc. auto.
Qed.

Lemma skip_space_all s : forallb isspace s = true -> skip_space s = [].
Proof.
  intros H. rewrite <- (app_nil_r s). now rewrite skip_space_app.
Qed.

Lemma span_word_app word post :
  forallb (fun c => negb (isspace c)) word = true ->
  forallb isspace post = true ->
  span_word (word ++ post) = (word, post).
Proof.
  induction word as [|c word IH]; simpl; intros Hw Hp.
  - destruct post as [|c post]; simpl; auto.
    simpl in Hp. apply andb_prop in Hp as [-> _]. reflexivity.
  - apply andb_prop in Hw as [Hc Hw].
    apply negb_true_iff in Hc. rewrite Hc. now rewrite IH.
Qed.

(** A text made of one word at most, with whitespace around it, splits
    into fewer than two parts. *)
Lemma split_without_argument pre word post :
  forallb isspace pre = true ->
  forallb (fun c => negb (isspace c)) word = true ->
  forallb isspace post = true ->
  split_maxsplit_1 (pre ++ word ++ post)
  = match word with [] => [] | _ => [word] end.
Proof.
  intros Hpre Hw Hp. unfold split_maxsplit_1.
  rewrite skip_space_app by assumption.
  destruct word as [|c word].
  - simpl. now rewrite skip_space_all.
  - assert (Hc : isspace c = false).
    { simpl in Hw. apply andb_prop in Hw as [Hc _].
      now apply negb_true_iff in Hc. }
    assert (E : skip_space ((c :: word) ++ post) = (c :: word) ++ post)
      by (simpl; now rewrite Hc).
    rewrite E. remember ((c :: word) ++ post) as s eqn:Hs.
    destruct s as [|c' s']; [discriminate|].
    rewrite Hs, span_word_app by assumption.
    rewrite skip_space_all by assumption. reflexivity.
Qed.

Section CoordinatorProperties.
Context {R : Runtime}.

(** C5: when the text of a forecast command is the command word alone,
    with whitespace before or after it at most, [handle_forecast] replies
    with exactly the usage hint and returns: no request goes to the
    provider, and neither the store nor its file changes. *)
Theorem handle_forecast_without_argument p u w pre word post :
  Coordinator.message_text u = pre ++ word ++ post ->
  forallb isspace pre = true ->
  forallb (fun c => negb (isspace c)) word = true ->
  forallb isspace post = true ->
  let out := Coordinator.handle_forecast p u w in
  fst out = Ok tt
  /\ replies (snd out) = replies w ++ [Coordinator.usage_hint_text]
  /\ requests (snd out) = requests w
  /\ data (snd out) = data w
  /\ file (snd out) = file w.
Proof.
  intros Htext Hpre Hw Hp. unfold Coordinator.handle_forecast.
  rewrite Htext, split_without_argument by assumption.
  destruct word; simpl; auto.
Qed.

End CoordinatorProperties.

(** ** DataStorage *)

Lemma save_data_keeps w :
  let w' := snd (DataStorage._save_data w) in
  data w' = data w /\ replies w' = replies w /\ requests w' = requests w.
Proof.
  unfold DataStorage._save_data. destruct (file w); simpl; auto.
Qed.

(** Replace the fields of the world after [_save_data] by those before. *)
Ltac saved :=
  match goal with
  | |- context [DataStorage._save_data ?x] =>
      let Hd := fresh in
      let Hr := fresh in
      let Hq := fresh in
      destruct (save_data_keeps x) as (Hd & Hr & Hq);
      try rewrite Hd; try rewrite Hr; try rewrite Hq
  end.

Lemma save_data_result w :
  file w <> Denied ->
  DataStorage._save_data w
  = (Ok tt, set_file w (Document (Json.dump (VDict (data w))))).
Proof.
  unfold DataStorage._save_data. destruct (file w); congruence.
Qed.

(** On a store of histories [save_weather_request] is one update of the
    user's key followed by the rewrite of the file. *)
Lemma save_weather_request_run w u city weather :
  history_store (data w) ->
  DataStorage.save_weather_request u city weather w
  = DataStorage._save_data
      (set_data w
         (dict_set (data w) (KInt u)
            (VList (entries_of (data w) u ++ [DataStorage.entry city weather])))).
Proof.
  intros Hd.
  unfold DataStorage.save_weather_request, bind, DataStorage.append_to,
    entries_of, dict_contains.
  destruct (dict_get (data w) (KInt u)) as [v|] eqn:E; simpl.
  - rewrite E. destruct (Hd _ _ E) as [h ->]. reflexivity.
  - rewrite dict_get_set_same. simpl. now rewrite dict_set_set.
Qed.

(** Whatever the store holds, [save_weather_request] leaves the other keys
    alone and sends nothing. *)
Lemma save_weather_request_other_keys w u city weather k :
  k <> KInt u ->
  dict_get (data (snd (DataStorage.save_weather_request u city weather w))) k
  = dict_get (data w) k.
Proof.
  intros Hk.
  unfold DataStorage.save_weather_request, bind, DataStorage.append_to,
    dict_contains.
  destruct (dict_get (data w) (KInt u)) as [v|] eqn:E; simpl.
  - rewrite E. destruct v; simpl; auto.
    saved. simpl. now apply dict_get_set_other.
  - rewrite dict_get_set_same. saved.
    simpl. rewrite dict_set_set. now apply dict_get_set_other.
Qed.

Lemma save_weather_request_quiet w u city weather :
  let w' := snd (DataStorage.save_weather_request u city weather w) in
  replies w' = replies w /\ requests w' = requests w.
Proof.
  unfold DataStorage.save_weather_request, bind, DataStorage.append_to,
    dict_contains.
  destruct (dict_get (data w) (KInt u)) as [v|] eqn:E; simpl.
  - rewrite E. destruct v; simpl; auto. saved. auto.
  - rewrite dict_get_set_same. saved. auto.
Qed.

(** The store after [save_weather_request] on a store of histories. *)
Lemma save_weather_request_data w u city weather :
  history_store (data w) ->
  data (snd (DataStorage.save_weather_request u city weather w))
  = dict_set (data w) (KInt u)
      (VList (entries_of (data w) u ++ [DataStorage.entry city weather])).
Proof.
  intros Hd. rewrite save_weather_request_run by assumption.
  saved. reflexivity.
Qed.

Lemma save_weather_request_entries w u city weather :
  history_store (data w) ->
  entries_of (data (snd (DataStorage.save_weather_request u city weather w))) u
  = entries_of (data w) u ++ [DataStorage.entry city weather].
Proof.
  intros Hd. unfold entries_of at 1.
  now rewrite save_weather_request_data, dict_get_set_same.
Qed.

(** C10: on a store of histories, [save_weather_request u city weather]
    changes the store only by appending the entry [{city, weather}] at the
    end of [u]'s history, created empty when absent: every other key, hence
    every other user's history, is unchanged, every earlier entry of [u]
    keeps its value and position, and nothing is sent to the chat or to the
    provider. *)
Theorem save_weather_request_appends_only w u city weather :
  history_store (data w) ->
  let w' := snd (DataStorage.save_weather_request u city weather w) in
  DataStorage.get_user_history (data w) u = VList (entries_of (data w) u)
  /\ DataStorage.get_user_history (data w') u
     = VList (entries_of (data w) u ++ [DataStorage.entry city weather])
  /\ (forall k, k <> KInt u -> dict_get (data w') k = dict_get (data w) k)
  /\ (forall u', u' <> u ->
        DataStorage.get_user_history (data w') u'
        = DataStorage.get_user_history (data w) u')
  /\ (forall i e, nth_error (entries_of (data w) u) i = Some e ->
        nth_error (entries_of (data w') u) i = Some e)
  /\ List.length (entries_of (data w') u) = S (List.length (entries_of (data w) u))
  /\ history_store (data w')
  /\ replies w' = replies w /\ requests w' = requests w.
Proof.
  intros Hd w'.
  pose proof (@save_weather_request_data w u city weather Hd) as Hdata.
  pose proof (@save_weather_request_entries w u city weather Hd) as Hnew.
  fold w' in Hdata, Hnew.
  repeat split.
  - unfold DataStorage.get_user_history, entries_of.
    destruct (dict_get (data w) (KInt u)) as [v|] eqn:E; auto.
    now destruct (Hd _ _ E) as [h ->].
  - unfold DataStorage.get_user_history. now rewrite Hdata, dict_get_set_same.
  - intros k Hk. now apply save_weather_request_other_keys.
  - intros u' Hu'. unfold DataStorage.get_user_history.
    unfold w'. rewrite save_weather_request_other_keys; congruence.
  - intros i e Hi. rewrite Hnew. rewrite nth_error_app1; auto.
    apply nth_error_Some. congruence.
  - rewrite Hnew, length_app. simpl. lia.
  - rewrite Hdata. now apply history_store_set.
  - apply save_weather_request_quiet.
  - apply save_weather_request_quiet.
Qed.

Lemma dict_of_pairs_no_int_key (l : list (pykey * value)) acc u :
  (forall kv, In kv l -> exists s, fst kv = KStr s) ->
  dict_get acc (KInt u) = None ->
  dict_get (fold_left (fun a kv => dict_set a (fst kv) (snd kv)) l acc) (KInt u)
  = None.
Proof.
  revert acc. induction l as [|[k v] l IH]; simpl; intros acc Hl Hacc; auto.
  apply IH.
  - intros kv Hkv. apply Hl. now right.
  - destruct (Hl (k, v)) as [s Hs]; [now left|]. simpl in Hs. subst k.
    rewrite dict_get_set_other by discriminate. assumption.
Qed.

(** A store that [json.load] has just produced has no [int] key. *)
Lemma loaded_store_has_no_int_key f d u :
  DataStorage._load_data f = Ok (VDict d) -> dict_get d (KInt u) = None.
Proof.
  unfold DataStorage._load_data.
  destruct f as [| | |j]; simpl; try discriminate.
  - intros [= <-]. reflexivity.
  - destruct j; simpl; try discriminate.
    intros [= <-]. unfold dict_of_pairs.
    apply dict_of_pairs_no_int_key; auto.
    intros kv Hkv. apply in_map_iff in Hkv as [[s j] [<- _]].
    now exists s.
Qed.

Lemma after_saves_other_user cs w u :
  ~ In u (List.map caller cs) ->
  dict_get (data (after_saves cs w)) (KInt u) = dict_get (data w) (KInt u).
Proof.
  revert w. induction cs as [|c cs IH]; simpl; intros w Hu; auto.
  unfold after_saves in *. simpl. rewrite IH by tauto.
  apply save_weather_request_other_keys.
  intros [= E]. apply Hu. now left.
Qed.

(** [get_user_history] is a lookup of the [int] key with the default [[]]:
    it returns what the store holds under that key, unchanged, and the
    empty list when the key is absent; in a store just loaded (or started
    empty) and then written only through [save_weather_request], a user
    that was never passed to [save_weather_request] gets the empty list. *)
Lemma get_user_history_unchanged_or_empty (d : pydict) (u : Z) :
  (forall h, dict_get d (KInt u) = Some h ->
     DataStorage.get_user_history d u = h)
  /\ (dict_get d (KInt u) = None ->
      DataStorage.get_user_history d u = VList [])
  /\ (forall f w cs,
        DataStorage._load_data f = Ok (VDict (data w)) ->
        ~ In u (List.map caller cs) ->
        d = data (after_saves cs w) ->
        DataStorage.get_user_history d u = VList []).
Proof.
  unfold DataStorage.get_user_history. repeat split.
  - now intros h ->.
  - now intros ->.
  - intros f w cs Hload Hu ->.
    rewrite after_saves_other_user by assumption.
    now rewrite (loaded_store_has_no_int_key _ u Hload).
Qed.

(** ** Loading the store *)

(** C8, as stated, fails: a file that exists but cannot be opened, or that
    does not hold JSON, makes [_load_data] raise. *)
Lemma load_data_unreadable_file_raises :
  DataStorage._load_data Denied = Raise PermissionError
  /\ DataStorage._load_data Garbage = Raise JSONDecodeError.
Proof. split; reflexivity. Qed.

(** C8, amended: [_load_data] starts from the empty store instead of
    raising when the backing file does not exist; it raises exactly when the
    file exists and cannot be opened or does not hold JSON, and what it
    raises then is never [FileNotFoundError]. *)
Theorem load_data_missing_file_only (f : file_state) :
  (f = Missing -> DataStorage._load_data f = Ok (VDict []))
  /\ ((exists e, DataStorage._load_data f = Raise e)
      <-> f = Denied \/ f = Garbage)
  /\ (forall e, DataStorage._load_data f = Raise e -> e <> FileNotFoundError).
Proof.
  repeat split.
  - now intros ->.
  - intros [e He]. destruct f; try discriminate; auto.
  - intros [-> | ->]; eexists; reflexivity.
  - intros e He. destruct f; simpl in He; try discriminate;
      injection He as <-; discriminate.
Qed.

(** ** Rewriting and reloading the store *)

Lemma dump_keys_are_text (d : pydict) u acc :
  dict_get acc (KInt u) = None ->
  dict_get
    (fold_left (fun a kv => dict_set a (fst kv) (snd kv))
       (List.map (fun kj => (KStr (fst kj), Json.load (snd kj)))
          (List.map (fun kv => (Json.key_text (fst kv), Json.dump (snd kv))) d))
       acc)
    (KInt u)
  = None.
Proof.
  intros Hacc. apply dict_of_pairs_no_int_key; auto.
  intros kv Hkv. apply in_map_iff in Hkv as [[s j] [<- _]]. now exists s.
Qed.

(** C2: after the store is written with [_save_data] and read back with
    [_load_data], every key is a string, and [get_user_history], which
    looks the [int] user identifier up, finds no history for any user. *)
Theorem reload_forgets_every_history (w : world) :
  file w <> Denied ->
  exists d',
    DataStorage._load_data (file (snd (DataStorage._save_data w)))
    = Ok (VDict d')
    /\ forall u, DataStorage.get_user_history d' u = VList [].
Proof.
  intros Hf. rewrite save_data_result by assumption.
  eexists. split; [reflexivity|].
  intros u. unfold DataStorage.get_user_history, dict_of_pairs.
  now rewrite dump_keys_are_text.
Qed.

(** ** Stores that survive a reload *)

Lemma dict_set_absent d k v :
  dict_get d k = None -> dict_set d k v = d ++ [(k, v)].
Proof.
  induction d as [|[k0 v0] d IH]; simpl; auto.
  destruct (pykey_eqb k k0); [discriminate|]. intros H. now rewrite IH.
Qed.

Lemma dict_get_app_other d k k' v :
  k' <> k -> dict_get (d ++ [(k, v)]) k' = dict_get d k'.
Proof.
  intros Hne. rewrite <- (dict_get_set_other d v Hne).
  induction d as [|[k0 v0] d IH]; simpl.
  - reflexivity.
  - destruct (pykey_eqb k k0) eqn:E; simpl.
    + apply pykey_eqb_eq in E. subst k0.
      apply pykey_eqb_neq in Hne. rewrite Hne.
      clear IH. induction d as [|[k1 v1] d IH]; simpl.
      * now rewrite Hne.
      * destruct (pykey_eqb k' k1); auto.
    + destruct (pykey_eqb k' k0); auto.
Qed.

Lemma existsb_pykey_false k ks :
  existsb (pykey_eqb k) ks = false -> ~ In k ks.
Proof.
  intros H Hin. assert (existsb (pykey_eqb k) ks = true); [|congruence].
  apply existsb_exists. exists k. split; auto. apply pykey_eqb_refl.
Qed.

(** Pairs with distinct keys, put in a dict one after the other, give the
    list of pairs back. *)
Lemma fold_dict_set_distinct (l acc : pydict) :
  NoDup (List.map fst l) ->
  (forall k, In k (List.map fst l) -> dict_get acc k = None) ->
  fold_left (fun a kv => dict_set a (fst kv) (snd kv)) l acc = acc ++ l.
Proof.
  revert acc. induction l as [|[k v] l IH]; simpl; intros acc Hnd Hacc.
  - now rewrite app_nil_r.
  - inversion Hnd as [|? ? Hk Hnd']; subst.
    rewrite dict_set_absent by (apply Hacc; now left).
    rewrite IH; auto.
    + now rewrite <- app_assoc.
    + intros k' Hk'. rewrite dict_get_app_other.
      * apply Hacc. now right.
      * intros ->. contradiction.
Qed.

Lemma distinct_str_keys_NoDup ks :
  distinct_str_keys ks = true ->
  NoDup ks /\ forall k, In k ks -> exists s, k = KStr s.
Proof.
  induction ks as [|k ks IH]; simpl.
  - intros _. split; [constructor|]. intros k [].
  - destruct k as [n|s]; [discriminate|]. intros H.
    apply andb_prop in H as [Hk Hks]. apply negb_true_iff in Hk.
    destruct (IH Hks) as [Hnd Hstr]. split.
    + constructor; auto. now apply existsb_pykey_false.
    + intros k [<-|Hin]; eauto.
Qed.

(** A store whose keys are strings, as one read from the file is, comes
    back from [json.dump] and [json.load] as it was. *)
Lemma load_dump_json_shaped v :
  json_shaped v = true -> Json.load (Json.dump v) = v.
Proof.
  induction v as [| | | | |l IH|d IH] using value_nested_ind;
    simpl; intros H; try reflexivity.
  - f_equal. rewrite map_map.
    induction IH as [|x l Hx _ IHl]; simpl; auto.
    simpl in H. apply andb_prop in H as [H1 H2].
    now rewrite Hx, IHl.
  - apply andb_prop in H as [Hkeys Hvals].
    apply distinct_str_keys_NoDup in Hkeys as [Hnd Hstr].
    rewrite map_map. cbn [fst snd].
    assert (Hmap : List.map
                     (fun x => (KStr (Json.key_text (fst x)),
                                Json.load (Json.dump (snd x)))) d = d).
    { clear Hnd. induction IH as [|[k x] d Hx _ IHd]; simpl; auto.
      simpl in Hvals. apply andb_prop in Hvals as [H1 H2].
      simpl in Hx. rewrite Hx by assumption.
      destruct (Hstr k) as [s ->]; [now left|]. simpl.
      rewrite IHd; auto. intros k' Hk'. apply Hstr. now right. }
    rewrite Hmap. unfold dict_of_pairs.
    rewrite fold_dict_set_distinct; auto.
Qed.

Lemma reload_string_keyed_store_aux w :
  file w <> Denied ->
  json_shaped (VDict (data w)) = true ->
  DataStorage._load_data (file (snd (DataStorage._save_data w)))
  = Ok (VDict (data w)).
Proof.
  intros Hf Hshape. rewrite save_data_result by assumption.
  unfold DataStorage._load_data. cbn [snd file set_file DataStorage.open_read
    and_then DataStorage.json_load].
  now rewrite load_dump_json_shaped.
Qed.

Lemma reload_string_keyed_store w :
  file w <> Denied ->
  json_shaped (VDict (data w)) = true ->
  DataStorage._load_data (file (snd (DataStorage._save_data w)))
  = Ok (VDict (data w)).
Proof. apply reload_string_keyed_store_aux. Qed.

(** ** The coordinator's handlers, step by step *)

Section HandlerRuns.
Context {R : Runtime}.

Lemma handle_forecast_run p u w cmd city rest fd :
  split_maxsplit_1 (Coordinator.message_text u) = cmd :: city :: rest ->
  p Forecast city = Ok (VDict fd) ->
  Coordinator.handle_forecast p u w
  = let w1 := add_request w Forecast city in
    if eq_str (field fd "cod" VNone) (lit "200") then
      match
        and_then (slice_5 (field fd "list" (VList [])))
          (fun five =>
             and_then (py_iter five) (traverse Coordinator.forecast_line))
      with
      | Ok lines =>
          (Ok tt,
           add_reply w1 (join newline (Coordinator.forecast_header city :: lines)))
      | Raise e => (Raise e, w1)
      end
    else (Ok tt, add_reply w1 Coordinator.forecast_failure_text).
Proof.
  intros Hsplit Hp. unfold Coordinator.handle_forecast. rewrite Hsplit.
  unfold bind, WeatherAPI.get_forecast_by_city, lift, method_get, field.
  rewrite Hp. cbv beta iota.
  destruct (dict_get fd (KStr (lit "cod"))) as [cod|];
    destruct (eq_str _ (lit "200")); cbv beta iota; try reflexivity;
    unfold negb; cbv beta iota;
    destruct (dict_get fd (KStr (lit "list"))) as [fl|]; cbv beta iota;
    unfold and_then;
    try (destruct (slice_5 _) as [five|e]; [|reflexivity];
         destruct (py_iter five) as [pts|e]; [|reflexivity];
         destruct (traverse _ pts) as [lines|e]; reflexivity).
Qed.

Lemma handle_message_run p u w d :
  p CurrentWeather (Coordinator.message_text u) = Ok (VDict d) ->
  Coordinator.handle_message p u w
  = let text := Coordinator.message_text u in
    let w1 := add_request w CurrentWeather text in
    if eq_200 (field d "cod" VNone) then
      match message_fields (VDict d) with
      | Raise e => (Raise e, w1)
      | Ok (description, temperature) =>
          match
            DataStorage.save_weather_request
              (Coordinator.effective_user_id u) text (VDict d) w1
          with
          | (Raise e, w2) => (Raise e, w2)
          | (Ok _, w2) =>
              match Coordinator.weather_text text description temperature with
              | Raise e => (Raise e, w2)
              | Ok t => (Ok tt, add_reply w2 t)
              end
          end
      end
    else (Ok tt, add_reply w1 Coordinator.weather_failure_text).
Proof.
  intros Hp. unfold Coordinator.handle_message.
  unfold bind at 1. unfold WeatherAPI.get_weather_by_city. rewrite Hp.
  unfold bind at 1. unfold lift at 1, method_get, field.
  destruct (dict_get d (KStr (lit "cod"))) as [cod|];
    destruct (eq_200 _); cbv beta iota zeta; unfold negb; try reflexivity.
  all: unfold message_fields, and_then, bind, lift.
  all: destruct (getitem_str (VDict d) (lit "weather")) as [ws|e];
    [|reflexivity].
  all: destruct (getitem_0 ws) as [w0|e]; [|reflexivity].
  all: destruct (getitem_str w0 (lit "description")) as [description|e];
    [|reflexivity].
  all: destruct (getitem_str (VDict d) (lit "main")) as [main|e];
    [|reflexivity].
  all: destruct (getitem_str main (lit "temp")) as [temperature|e];
    [|reflexivity].
  all: destruct (DataStorage.save_weather_request _ _ _ _) as [[[]|e] w2];
    [|reflexivity].
  all: destruct (Coordinator.weather_text _ description temperature)
    as [t|e]; reflexivity.
Qed.

End HandlerRuns.

Lemma add_reply_inj w t t' : add_reply w t = add_reply w t' -> t = t'.
Proof.
  unfold add_reply. intros [= H]. now apply app_inj_tail in H as [_ H].
Qed.

Section HandlerProperties.
Context {R : Runtime}.

Lemma weather_text_head text description temperature t :
  Coordinator.weather_text text description temperature = Ok t ->
  exists t', t = 87%N :: t'.
Proof.
  unfold Coordinator.weather_text, and_then.
  destruct (method_capitalize description); [|discriminate].
  intros [= <-]. eexists. reflexivity.
Qed.

Lemma forecast_text_head city lines :
  exists t', join newline (Coordinator.forecast_header city :: lines) = 87%N :: t'.
Proof.
  destruct lines; eexists; reflexivity.
Qed.


(** C7: [handle_message] takes the failure path, the fixed failure reply
    and nothing else, exactly when the ['cod'] field of the response is not
    equal to the integer 200, and [handle_forecast] exactly when it is not
    equal to the string "200".  The string "200" is a failure for the
    current weather and the integer 200 a failure for the forecast; a
    missing field counts as [None]. *)
Theorem success_status_per_endpoint p u w d :
  (p CurrentWeather (Coordinator.message_text u) = Ok (VDict d) ->
   (eq_200 (field d "cod" VNone) = false <->
    Coordinator.handle_message p u w
    = (Ok tt,
       add_reply (add_request w CurrentWeather (Coordinator.message_text u))
         Coordinator.weather_failure_text)))
  /\ (forall cmd city rest,
        split_maxsplit_1 (Coordinator.message_text u) = cmd :: city :: rest ->
        p Forecast city = Ok (VDict d) ->
        (eq_str (field d "cod" VNone) (lit "200") = false <->
         Coordinator.handle_forecast p u w
         = (Ok tt,
            add_reply (add_request w Forecast city)
              Coordinator.forecast_failure_text)))
  /\ (forall v, eq_200 v = true <-> v = VInt 200 \/ v = VFloat (lit "200.0"))
  /\ (forall v, eq_str v (lit "200") = true <-> v = VStr (lit "200"))
  /\ eq_200 (VStr (lit "200")) = false
  /\ eq_str (VInt 200) (lit "200") = false.
Proof.
  repeat split.
  - intros Hcod. rewrite (handle_message_run p u w H). cbv zeta. now rewrite Hcod.
  - rewrite (handle_message_run p u w H). cbv zeta.
    destruct (eq_200 _); [|reflexivity].
    destruct (message_fields _) as [[description temperature]|e];
      [|discriminate].
    destruct (DataStorage.save_weather_request _ _ _ _) as [[[]|e] w2] eqn:Hs;
      [|discriminate].
    destruct (Coordinator.weather_text _ _ _) as [t|e] eqn:Ht; [|discriminate].
    intros Hw. exfalso.
    apply weather_text_head in Ht as [t' ->].
    apply (f_equal (fun x => replies (snd x))) in Hw. simpl in Hw.
    pose proof (save_weather_request_quiet
                  (add_request w CurrentWeather (Coordinator.message_text u))
                  (Coordinator.effective_user_id u)
                  (Coordinator.message_text u) (VDict d)) as [Hq _].
    rewrite Hs in Hq. simpl in Hq. rewrite Hq in Hw.
    apply app_inj_tail in Hw as [_ Hw]. discriminate.
  - intros Hcod. rewrite (handle_forecast_run _ _ _ H H0). cbv zeta.
    now rewrite Hcod.
  - rewrite (handle_forecast_run _ _ _ H H0). cbv zeta.
    destruct (eq_str _ _); [|reflexivity].
    destruct (and_then _ _) as [lines|e]; [|discriminate].
    intros Hw. exfalso.
    apply (f_equal (fun x => replies (snd x))) in Hw.
    cbn [replies snd add_reply add_request] in Hw.
    apply app_inj_tail in Hw as [_ Hw].
    destruct (forecast_text_head city lines) as [t' Ht]. rewrite Ht in Hw.
    discriminate.
  - destruct v; simpl; try discriminate.
    + intros Hn. apply Z.eqb_eq in Hn. left. congruence.
    + intros Hr. apply str_eqb_eq in Hr. right. congruence.
  - intros [->| ->]; reflexivity.
  - destruct v; simpl; try discriminate.
    intros Hs. apply str_eqb_eq in Hs. congruence.
  - intros ->. reflexivity.
Qed.

End HandlerProperties.

(** ** Capitalisation *)











(** Beyond ASCII: accented and Cyrillic letters, characters that become
    several ("ß", "ﬁ", "İ" after another letter), the title case of a
    digraph, and the capital sigma, final after a letter and plain
    elsewhere. *)
Example capitalize_beyond_ascii :
  capitalize [233; 76; 65; 78; 32; 201; 84; 201]%N
  = [201; 108; 97; 110; 32; 233; 116; 233]%N
  /\ capitalize [1103; 1089; 1085; 1086; 32; 1071; 1057; 1053; 1054]%N
     = [1071; 1089; 1085; 1086; 32; 1103; 1089; 1085; 1086]%N
  /\ capitalize [223; 97]%N = [83; 115; 97]%N
  /\ capitalize [64257; 78]%N = [70; 105; 110]%N
  /\ capitalize [97; 304]%N = [65; 105; 775]%N
  /\ capitalize [454; 65]%N = [453; 97]%N
  /\ capitalize [959; 948; 959; 931; 32; 931; 927; 931]%N
     = [927; 948; 959; 962; 32; 963; 959; 962]%N
  /\ capitalize [97; 39; 931; 46; 98; 32; 931]%N
     = [65; 39; 963; 46; 98; 32; 963]%N.
Proof. vm_compute. repeat split. Qed.

Section Capitalisation.
Context {R : Runtime}.


End Capitalisation.

(** ** What the handlers do to the store *)

Section StoreEffects.
Context {R : Runtime}.

Lemma handle_history_keeps_store u w :
  let w' := snd (Coordinator.handle_history u w) in
  data w' = data w /\ file w' = file w /\ requests w' = requests w.
Proof.
  unfold Coordinator.handle_history.
  destruct (negb _); [simpl; auto|].
  unfold bind, lift.
  destruct (py_iter _); [|simpl; auto].
  destruct (traverse _ _); simpl; auto.
Qed.

Lemma handle_forecast_keeps_store p u w :
  let w' := snd (Coordinator.handle_forecast p u w) in
  data w' = data w /\ file w' = file w.
Proof.
  unfold Coordinator.handle_forecast.
  destruct (split_maxsplit_1 _) as [|cmd [|city rest]]; [simpl; auto..|].
  unfold bind, lift, WeatherAPI.get_forecast_by_city.
  destruct (p Forecast city) as [fd|e]; [|simpl; auto].
  destruct (method_get fd _ _) as [cod|e]; [|simpl; auto].
  destruct (negb _); [simpl; auto|].
  destruct (method_get fd _ _) as [fl|e]; [|simpl; auto].
  destruct (slice_5 fl) as [five|e]; [|simpl; auto].
  destruct (py_iter five) as [pts|e]; [|simpl; auto].
  destruct (traverse _ pts); simpl; auto.
Qed.

(** A current-weather request whose response carries the success code and
    the fields the reply shows is recorded: one entry more for the user,
    nothing else changed in the store. *)
Lemma handle_message_records p u w d description temperature :
  p CurrentWeather (Coordinator.message_text u) = Ok (VDict d) ->
  eq_200 (field d "cod" VNone) = true ->
  message_fields (VDict d) = Ok (description, temperature) ->
  history_store (data w) ->
  let uid := Coordinator.effective_user_id u in
  let w' := snd (Coordinator.handle_message p u w) in
  entries_of (data w') uid
  = entries_of (data w) uid
      ++ [DataStorage.entry (Coordinator.message_text u) (VDict d)]
  /\ forall k, k <> KInt uid -> dict_get (data w') k = dict_get (data w) k.
Proof.
  intros Hp Hcod Hfields Hd uid w'. unfold w'.
  rewrite (handle_message_run p u w Hp). cbv zeta. rewrite Hcod, Hfields.
  set (w1 := add_request w CurrentWeather (Coordinator.message_text u)).
  assert (Hd1 : history_store (data w1)) by exact Hd.
  pose proof (@save_weather_request_entries w1 uid
                (Coordinator.message_text u) (VDict d) Hd1) as Hnew.
  pose proof (fun k => @save_weather_request_other_keys w1 uid
                         (Coordinator.message_text u) (VDict d) k) as Hother.
  fold uid.
  destruct (DataStorage.save_weather_request uid (Coordinator.message_text u)
              (VDict d) w1) as [[[]|e] w2]; simpl in *.
  - destruct (Coordinator.weather_text _ _ _); simpl; auto.
  - auto.
Qed.

(** When the response does not carry the success code, or lacks a field
    the reply shows, nothing is recorded. *)
Lemma handle_message_records_nothing p u w d :
  p CurrentWeather (Coordinator.message_text u) = Ok (VDict d) ->
  eq_200 (field d "cod" VNone) = false
  \/ (exists e, message_fields (VDict d) = Raise e) ->
  let w' := snd (Coordinator.handle_message p u w) in
  data w' = data w /\ file w' = file w.
Proof.
  intros Hp Hcase. cbv zeta. rewrite (handle_message_run p u w Hp). cbv zeta.
  destruct (eq_200 _).
  - destruct Hcase as [Hc|[e He]]; [discriminate|]. rewrite He. simpl. auto.
  - simpl. auto.
Qed.

End StoreEffects.

(** ** The store along a run of the bot *)

Section Runs.
Context {R : Runtime}.

Lemma handle_message_data p u w :
  data (snd (Coordinator.handle_message p u w))
  = match p CurrentWeather (Coordinator.message_text u) with
    | Ok (VDict d) =>
        if eq_200 (field d "cod" VNone) then
          match message_fields (VDict d) with
          | Ok _ =>
              data (snd (DataStorage.save_weather_request
                           (Coordinator.effective_user_id u)
                           (Coordinator.message_text u) (VDict d)
                           (add_request w CurrentWeather
                              (Coordinator.message_text u))))
          | Raise _ => data w
          end
        else data w
    | _ => data w
    end.
Proof.
  destruct (p CurrentWeather (Coordinator.message_text u)) as [v|e] eqn:Hp.
  - destruct v as [| | | | | |d];
      try (unfold Coordinator.handle_message, bind,
             WeatherAPI.get_weather_by_city, lift;
           rewrite Hp; reflexivity).
    rewrite (handle_message_run p u w Hp). cbv zeta.
    destruct (eq_200 _); [|reflexivity].
    destruct (message_fields _) as [[description temperature]|e];
      [|reflexivity].
    destruct (DataStorage.save_weather_request _ _ _ _) as [[[]|e] w2];
      [|reflexivity].
    destruct (Coordinator.weather_text _ _ _); reflexivity.
  - unfold Coordinator.handle_message, bind, WeatherAPI.get_weather_by_city.
    rewrite Hp. reflexivity.
Qed.

Lemma entries_of_same_key d d' u :
  dict_get d' (KInt u) = dict_get d (KInt u) -> entries_of d' u = entries_of d u.
Proof. unfold entries_of. now intros ->. Qed.

(** One event: the store stays a store of histories, and the history of
    each user grows by what the event records for that user. *)
Lemma handle_entries e w u :
  history_store (data w) ->
  history_store (data (snd (Coordinator.handle e w)))
  /\ entries_of (data (snd (Coordinator.handle e w))) u
     = entries_of (data w) u ++ recorded_by e u.
Proof.
  intros Hd. destruct e as [p upd|upd|p upd]; simpl.
  - rewrite handle_message_data.
    destruct (p CurrentWeather (Coordinator.message_text upd)) as [v|e];
      [|now rewrite app_nil_r].
    destruct v as [| | | | | |d]; try now rewrite app_nil_r.
    destruct (eq_200 _); [|now rewrite app_nil_r].
    destruct (message_fields _) as [fields|e]; [|now rewrite app_nil_r].
    set (w1 := add_request w CurrentWeather (Coordinator.message_text upd)).
    assert (Hd1 : history_store (data w1)) by exact Hd.
    split.
    + rewrite save_weather_request_data by assumption.
      now apply history_store_set.
    + destruct (Z.eqb (Coordinator.effective_user_id upd) u) eqn:E.
      * apply Z.eqb_eq in E. subst u.
        exact (@save_weather_request_entries w1 _ _ _ Hd1).
      * apply Z.eqb_neq in E. rewrite app_nil_r.
        apply entries_of_same_key.
        rewrite save_weather_request_other_keys by congruence. reflexivity.
  - destruct (handle_history_keeps_store upd w) as [-> _].
    now rewrite app_nil_r.
  - destruct (handle_forecast_keeps_store p upd w) as [-> _].
    now rewrite app_nil_r.
Qed.

(** Along any sequence of events the history of a user is what it was at
    the start followed by the entries of the user's successful
    current-weather requests, one for each, in the order of the requests. *)
Lemma run_entries es w u :
  history_store (data w) ->
  history_store (data (Coordinator.run es w))
  /\ entries_of (data (Coordinator.run es w)) u
     = entries_of (data w) u ++ flat_map (fun e => recorded_by e u) es.
Proof.
  revert w. induction es as [|e es IH]; simpl; intros w Hd.
  - now rewrite app_nil_r.
  - destruct (handle_entries e w u Hd) as [Hd' He].
    unfold Coordinator.run in *. simpl.
    destruct (IH _ Hd') as [Hd'' Hes]. split; auto.
    now rewrite Hes, He, app_assoc.
Qed.

End Runs.

(** ** Partial payloads *)

Section PartialPayloads.
Context {R : Runtime}.

(** The history renderer fills in the placeholders when the stored payload
    has no weather list or no description in its first element, and no
    ['main'] object or no temperature in it. *)
Lemma history_line_placeholders city wd :
  (dict_get wd (KStr (lit "weather")) = None
   \/ exists d0 rest,
        dict_get wd (KStr (lit "weather")) = Some (VList (VDict d0 :: rest))) ->
  (dict_get wd (KStr (lit "main")) = None
   \/ exists m, dict_get wd (KStr (lit "main")) = Some (VDict m)) ->
  exists description temp,
    Coordinator.history_line (DataStorage.entry city (VDict wd))
    = Ok (lit "City: " ++ city ++ lit ", Description: "
          ++ format description ++ lit ", Temp: " ++ format temp
          ++ degree_sign ++ lit "C")
    /\ (dict_get wd (KStr (lit "weather")) = None ->
        description = VStr Coordinator.no_description)
    /\ (dict_get wd (KStr (lit "main")) = None ->
        temp = VStr Coordinator.no_temperature).
Proof.
  intros Hw Hm.
  unfold Coordinator.history_line, DataStorage.entry.
  change (getitem_str
            (VDict [(KStr (lit "city"), VStr city);
                    (KStr (lit "weather"), VDict wd)]) (lit "city"))
    with (@Ok value (VStr city)).
  change (getitem_str
            (VDict [(KStr (lit "city"), VStr city);
                    (KStr (lit "weather"), VDict wd)]) (lit "weather"))
    with (@Ok value (VDict wd)).
  cbv [and_then]. unfold method_get at 1.
  destruct Hw as [Hw|(d0 & rest & Hw)]; rewrite Hw;
    destruct Hm as [Hm|(m & Hm)].
  all: cbv [getitem_0]; unfold method_get at 2; rewrite Hm.
  all: unfold method_get.
  - do 2 eexists. split; [reflexivity|]. auto.
  - destruct (dict_get m (KStr (lit "temp"))) as [t|];
      do 2 eexists; (split; [reflexivity|]); split; auto; congruence.
  - destruct (dict_get d0 (KStr (lit "description"))) as [t|];
      do 2 eexists; (split; [reflexivity|]); split; auto; congruence.
  - destruct (dict_get d0 (KStr (lit "description"))) as [t|];
      destruct (dict_get m (KStr (lit "temp"))) as [t'|];
      do 2 eexists; (split; [reflexivity|]); split; auto; congruence.
Qed.

(** C1: a current-weather response that carries the status 200 and lacks
    a field the reply shows ends [handle_message] with the exception of the
    failed lookup, before [save_weather_request] is reached: the status is
    200 and no entry is appended. *)
Theorem handle_message_partial_payload_not_recorded p u w d e :
  p CurrentWeather (Coordinator.message_text u) = Ok (VDict d) ->
  eq_200 (field d "cod" VNone) = true ->
  message_fields (VDict d) = Raise e ->
  Coordinator.handle_message p u w
  = (Raise e, add_request w CurrentWeather (Coordinator.message_text u))
  /\ entries_of (data (snd (Coordinator.handle_message p u w)))
       (Coordinator.effective_user_id u)
     = entries_of (data w) (Coordinator.effective_user_id u).
Proof.
  intros Hp Hcod Hfields.
  rewrite (handle_message_run p u w Hp). cbv zeta.
  rewrite Hcod, Hfields. split; reflexivity.
Qed.

(** C3: the history renderer puts the placeholders in for a stored payload
    without description and temperature, yet raises on an empty weather
    list; [handle_message] and [handle_forecast] raise on a response with
    the success code that lacks the description or the temperature, and
    send no reply. *)
Theorem partial_payload_raises p u uf w cmd city :
  p CurrentWeather (Coordinator.message_text u) = Ok payload_without_description ->
  split_maxsplit_1 (Coordinator.message_text uf) = [cmd; city] ->
  p Forecast city = Ok forecast_without_temperature ->
  Coordinator.history_line (DataStorage.entry city (VDict []))
  = Ok (lit "City: " ++ city
        ++ lit ", Description: No description, Temp: No temperature data"
        ++ degree_sign ++ lit "C")
  /\ Coordinator.history_line (DataStorage.entry city payload_empty_weather_list)
     = Raise IndexError
  /\ Coordinator.handle_message p u w
     = (Raise KeyError, add_request w CurrentWeather (Coordinator.message_text u))
  /\ Coordinator.handle_forecast p uf w
     = (Raise KeyError, add_request w Forecast city).
Proof.
  intros Hm Hsplit Hf. repeat split.
  - unfold payload_without_description in Hm.
    rewrite (handle_message_run p u w Hm). reflexivity.
  - unfold forecast_without_temperature in Hf.
    rewrite (handle_forecast_run _ _ _ Hsplit Hf). reflexivity.
Qed.

End PartialPayloads.

(** ** The theorems at concrete inputs *)

Lemma sample_world_is_history_store : history_store (data sample_world).
Proof.
  intros k v H. simpl in H.
  destruct (pykey_eqb k (KInt 7)); [|discriminate].
  injection H as <-. eexists. reflexivity.
Defined.

Lemma save_weather_request_appends_only_witness :
  history_store (data sample_world)
  /\ DataStorage.get_user_history
       (data (snd (DataStorage.save_weather_request 7 (lit "Paris")
                     paris_payload sample_world))) 7
     = VList [DataStorage.entry (lit "Oslo") payload_status_only;
              DataStorage.entry (lit "Paris") paris_payload]
  /\ DataStorage.get_user_history
       (data (snd (DataStorage.save_weather_request 7 (lit "Paris")
                     paris_payload sample_world))) 8
     = VList [].
Proof.
  pose proof (save_weather_request_appends_only sample_world 7 (lit "Paris")
                paris_payload sample_world_is_history_store) as H.
  cbv zeta in H. destruct H as (_ & Hnew & _ & Hother & _).
  split; [exact sample_world_is_history_store|]. split.
  - exact Hnew.
  - rewrite (Hother 8); [reflexivity|lia].
Defined.

Lemma handle_forecast_without_argument_witness :
  (Coordinator.message_text bare_forecast_command
   = [] ++ lit "/forecast" ++ lit "  "
   /\ forallb isspace [] = true
   /\ forallb (fun c => negb (isspace c)) (lit "/forecast") = true
   /\ forallb isspace (lit "  ") = true)
  /\ (fst (@Coordinator.handle_forecast ascii_runtime (always sample_forecast)
             bare_forecast_command sample_world) = Ok tt
      /\ replies (snd (@Coordinator.handle_forecast ascii_runtime
                         (always sample_forecast) bare_forecast_command
                         sample_world))
         = replies sample_world ++ [Coordinator.usage_hint_text]
      /\ requests (snd (@Coordinator.handle_forecast ascii_runtime
                          (always sample_forecast) bare_forecast_command
                          sample_world))
         = requests sample_world
      /\ data (snd (@Coordinator.handle_forecast ascii_runtime
                      (always sample_forecast) bare_forecast_command
                      sample_world))
         = data sample_world
      /\ file (snd (@Coordinator.handle_forecast ascii_runtime
                      (always sample_forecast) bare_forecast_command
                      sample_world))
         = file sample_world).
Proof.
  split; [repeat split|].
  exact (@handle_forecast_without_argument ascii_runtime
           (always sample_forecast) bare_forecast_command sample_world
           [] (lit "/forecast") (lit "  ")
           eq_refl eq_refl eq_refl eq_refl).
Defined.


Lemma success_status_per_endpoint_witness :
  (always (VDict [(KStr (lit "cod"), VStr (lit "200"))]) CurrentWeather
     (Coordinator.message_text paris_message)
   = Ok (VDict [(KStr (lit "cod"), VStr (lit "200"))])
   /\ eq_200 (field [(KStr (lit "cod"), VStr (lit "200"))] "cod" VNone) = false)
  /\ @Coordinator.handle_message ascii_runtime
       (always (VDict [(KStr (lit "cod"), VStr (lit "200"))]))
       paris_message empty_world
     = (Ok tt,
        add_reply (add_request empty_world CurrentWeather (lit "Paris"))
          Coordinator.weather_failure_text).
Proof.
  split; [split; reflexivity|].
  exact (proj1 (proj1 (@success_status_per_endpoint ascii_runtime
                         (always (VDict [(KStr (lit "cod"), VStr (lit "200"))]))
                         paris_message empty_world
                         [(KStr (lit "cod"), VStr (lit "200"))])
                  eq_refl) eq_refl).
Defined.

Lemma load_data_missing_file_only_witness :
  Missing = Missing /\ DataStorage._load_data Missing = Ok (VDict []).
Proof.
  split; [reflexivity|].
  exact (proj1 (load_data_missing_file_only Missing) eq_refl).
Defined.

Lemma reload_forgets_every_history_witness :
  file sample_world <> Denied
  /\ DataStorage.get_user_history (data sample_world) 7
     = VList [DataStorage.entry (lit "Oslo") payload_status_only]
  /\ exists d',
       DataStorage._load_data (file (snd (DataStorage._save_data sample_world)))
       = Ok (VDict d')
       /\ DataStorage.get_user_history d' 7 = VList [].
Proof.
  assert (Hf : file sample_world <> Denied) by discriminate.
  split; [exact Hf|]. split; [reflexivity|].
  destruct (@reload_forgets_every_history sample_world Hf) as (d' & Hload & Hget).
  exists d'. split; [exact Hload|exact (Hget 7)].
Defined.


Lemma handle_message_partial_payload_not_recorded_witness :
  (always payload_status_only CurrentWeather
     (Coordinator.message_text paris_message) = Ok payload_status_only
   /\ eq_200 (field [(KStr (lit "cod"), VInt 200)] "cod" VNone) = true
   /\ message_fields payload_status_only = Raise KeyError)
  /\ @Coordinator.handle_message ascii_runtime (always payload_status_only)
       paris_message empty_world
     = (Raise KeyError, add_request empty_world CurrentWeather (lit "Paris")).
Proof.
  split; [repeat split|].
  exact (proj1 (@handle_message_partial_payload_not_recorded ascii_runtime
                  (always payload_status_only) paris_message empty_world
                  [(KStr (lit "cod"), VInt 200)] KeyError
                  eq_refl eq_refl eq_refl)).
Defined.

Lemma partial_payload_raises_witness :
  ((fun e _ => match e with
               | CurrentWeather => Ok payload_without_description
               | Forecast => Ok forecast_without_temperature
               end) CurrentWeather (Coordinator.message_text paris_message)
   = Ok payload_without_description
   /\ split_maxsplit_1 (Coordinator.message_text oslo_forecast_command)
      = [lit "/forecast"; lit "Oslo"])
  /\ @Coordinator.history_line ascii_runtime
       (DataStorage.entry (lit "Oslo") payload_empty_weather_list)
     = Raise IndexError
  /\ @Coordinator.handle_message ascii_runtime
       (fun e _ => match e with
                   | CurrentWeather => Ok payload_without_description
                   | Forecast => Ok forecast_without_temperature
                   end)
       paris_message empty_world
     = (Raise KeyError, add_request empty_world CurrentWeather (lit "Paris"))
  /\ @Coordinator.handle_forecast ascii_runtime
       (fun e _ => match e with
                   | CurrentWeather => Ok payload_without_description
                   | Forecast => Ok forecast_without_temperature
                   end)
       oslo_forecast_command empty_world
     = (Raise KeyError, add_request empty_world Forecast (lit "Oslo")).
Proof.
  split; [split; reflexivity|].
  exact (proj2 (@partial_payload_raises ascii_runtime
                  (fun e _ => match e with
                              | CurrentWeather => Ok payload_without_description
                              | Forecast => Ok forecast_without_temperature
                              end)
                  paris_message oslo_forecast_command empty_world
                  (lit "/forecast") (lit "Oslo") eq_refl eq_refl eq_refl)).
Defined.

(** ** The scenarios of the specification *)

(** City "Paris", the provider answers with status 200, "clear sky" and
    18.5: the reply shows "Clear sky" and "18.5°C", and the history of the
    user holds one entry, for "Paris". *)
Example paris_scenario :
  @Coordinator.handle_message ascii_runtime (always paris_payload)
    paris_message empty_world
  = (Ok tt,
     mkWorld
       [(KInt 7, VList [DataStorage.entry (lit "Paris") paris_payload])]
       (Document
          (Json.JObject
             [(lit "7",
               Json.JArray
                 [Json.dump (DataStorage.entry (lit "Paris") paris_payload)])]))
       [lit "Weather in Paris:" ++ newline ++ lit "Clear sky" ++ newline
        ++ lit "Temperature: 18.5" ++ degree_sign ++ lit "C" ++ newline]
       [(CurrentWeather, lit "Paris")]).
Proof. reflexivity. Qed.

(** The provider answers with status 404: the reply is the failure text
    and the history is unchanged. *)
Example not_found_scenario :
  @Coordinator.handle_message ascii_runtime
    (always (VDict [(KStr (lit "cod"), VInt 404)])) paris_message sample_world
  = (Ok tt,
     add_reply (add_request sample_world CurrentWeather (lit "Paris"))
       Coordinator.weather_failure_text).
Proof. reflexivity. Qed.

(** Seven forecast points: the reply has the header and five lines. *)
Example seven_points_scenario :
  replies (snd (@Coordinator.handle_forecast ascii_runtime
                  (always sample_forecast) oslo_forecast_command empty_world))
  = [join newline
       (lit "Weather forecast for Oslo:"
        :: repeat (lit "2024-05-01 12:00:00: Light rain, Temp: 7"
                   ++ degree_sign ++ lit "C") 5)].
Proof. reflexivity. Qed.

(** After the Paris request the history command shows the entry; once the
    store has been written and read back it shows nothing. *)
Example history_after_reload_scenario :
  replies (snd (@Coordinator.handle_history ascii_runtime paris_message
                  (mkWorld
                     [(KInt 7, VList [DataStorage.entry (lit "Paris") paris_payload])]
                     Missing [] [])))
  = [lit "City: Paris, Description: clear sky, Temp: 18.5" ++ degree_sign
     ++ lit "C"]
  /\ replies (snd (@Coordinator.handle_history ascii_runtime paris_message
                     (mkWorld
                        [(KStr (lit "7"),
                          VList [DataStorage.entry (lit "Paris") paris_payload])]
                        Missing [] [])))
     = [Coordinator.history_empty_text].
Proof. split; reflexivity. Qed.

(** A restart, one more request of the same user, and a second restart:
    the file gets two members named "7", and the store read back keeps
    the later one only. *)
Example two_restarts_scenario :
  let restarted :=
    mkWorld
      [(KStr (lit "7"), VList [DataStorage.entry (lit "Oslo") payload_status_only])]
      Missing [] [] in
  let w := snd (DataStorage.save_weather_request 7 (lit "Paris") paris_payload
                  restarted) in
  List.map fst (data w) = [KStr (lit "7"); KInt 7]
  /\ file w
     = Document
         (Json.JObject
            [(lit "7",
              Json.JArray
                [Json.dump (DataStorage.entry (lit "Oslo") payload_status_only)]);
             (lit "7",
              Json.JArray
                [Json.dump (DataStorage.entry (lit "Paris") paris_payload)])])
  /\ DataStorage._load_data (file w)
     = Ok (VDict [(KStr (lit "7"),
                   VList [DataStorage.entry (lit "Paris") paris_payload])]).
Proof. repeat split. Qed.

(** * Further properties of the code *)

(** ** [split(maxsplit=1)] and the city of a forecast command *)

Lemma skip_space_decompose s :
  exists pre, s = pre ++ skip_space s /\ forallb isspace pre = true.
Proof.
  induction s as [|c s IH]; simpl.
  - now exists [].
  - destruct (isspace c) eqn:E.
    + destruct IH as (pre & Hs & Hpre). exists (c :: pre). simpl.
      rewrite E, Hpre. split; [congruence|reflexivity].
    + now exists [].
Qed.

Lemma skip_space_starts_a_word s c r :
  skip_space s = c :: r -> isspace c = false.
Proof.
  induction s as [|x s IH]; simpl; [discriminate|].
  destruct (isspace x) eqn:E; auto. intros [= -> _]. exact E.
Qed.

Lemma span_word_decompose s w r :
  span_word s = (w, r) ->
  s = w ++ r
  /\ forallb (fun c => negb (isspace c)) w = true
  /\ match r with [] => True | c :: _ => isspace c = true end.
Proof.
  revert w r. induction s as [|c s IH]; simpl; intros w r.
  - intros [= <- <-]. auto.
  - destruct (isspace c) eqn:E.
    + intros [= <- <-]. simpl. auto.
    + destruct (span_word s) as [w' r'] eqn:Hs. intros [= <- <-].
      destruct (IH _ _ eq_refl) as (H1 & H2 & H3). simpl.
      rewrite E, H2. repeat split; auto. congruence.
Qed.

Lemma span_word_stops_at_space word c rest :
  forallb (fun x => negb (isspace x)) word = true ->
  isspace c = true ->
  span_word (word ++ c :: rest) = (word, c :: rest).
Proof.
  induction word as [|x word IH]; simpl; intros Hw Hc.
  - now rewrite Hc.
  - apply andb_prop in Hw as [Hx Hw]. apply negb_true_iff in Hx.
    rewrite Hx. now rewrite IH.
Qed.

Lemma skip_space_at_word c s : isspace c = false -> skip_space (c :: s) = c :: s.
Proof. simpl. now intros ->. Qed.

(** A command word, whitespace, and a remainder that starts with a
    character other than whitespace split into the word and the whole
    remainder. *)
Lemma split_with_argument pre x word s sep c rest :
  forallb isspace pre = true ->
  forallb (fun y => negb (isspace y)) (x :: word) = true ->
  forallb isspace (s :: sep) = true ->
  isspace c = false ->
  split_maxsplit_1 (pre ++ (x :: word) ++ (s :: sep) ++ c :: rest)
  = [x :: word; c :: rest].
Proof.
  intros Hpre Hw Hsep Hc. unfold split_maxsplit_1.
  rewrite skip_space_app by assumption.
  assert (Hx : isspace x = false).
  { simpl in Hw. apply andb_prop in Hw as [Hx _].
    now apply negb_true_iff in Hx. }
  change ((x :: word) ++ (s :: sep) ++ c :: rest)
    with (x :: (word ++ (s :: sep) ++ c :: rest)).
  rewrite skip_space_at_word by assumption.
  change (x :: (word ++ (s :: sep) ++ c :: rest))
    with ((x :: word) ++ s :: (sep ++ c :: rest)).
  assert (Hs : isspace s = true).
  { simpl in Hsep. now apply andb_prop in Hsep as [Hs _]. }
  rewrite span_word_stops_at_space by assumption.
  change (s :: sep ++ c :: rest) with ((s :: sep) ++ c :: rest).
  rewrite skip_space_app by assumption.
  rewrite skip_space_at_word by assumption. reflexivity.
Qed.

(** X1: whatever the text, [split(maxsplit=1)] gives at most two parts.
    No part is empty, the first part holds no whitespace, and the second
    part starts with a character other than whitespace; the text is the
    parts with whitespace before, between (at least one character) and,
    when there is one part only, after them.  There is no part exactly
    when the text is all whitespace. *)
Theorem split_parts_shape (s : str) :
  match split_maxsplit_1 s with
  | [] => forallb isspace s = true
  | [w] =>
      w <> [] /\ forallb (fun c => negb (isspace c)) w = true
      /\ exists pre post,
           s = pre ++ w ++ post
           /\ forallb isspace pre = true /\ forallb isspace post = true
  | [w; r] =>
      w <> [] /\ forallb (fun c => negb (isspace c)) w = true
      /\ (exists c r', r = c :: r' /\ isspace c = false)
      /\ exists pre sep,
           s = pre ++ w ++ sep ++ r
           /\ forallb isspace pre = true /\ forallb isspace sep = true
           /\ sep <> []
  | _ => False
  end.
Proof.
  unfold split_maxsplit_1.
  destruct (skip_space_decompose s) as (pre & Hs & Hpre).
  destruct (skip_space s) as [|c s1] eqn:Hskip.
  - rewrite app_nil_r in Hs. now subst.
  - pose proof (skip_space_starts_a_word _ Hskip) as Hc.
    destruct (span_word (c :: s1)) as [w r] eqn:Hspan.
    destruct (span_word_decompose _ Hspan) as (Hwr & Hw & Hr).
    assert (Hne : w <> []).
    { intros ->. simpl in Hwr. subst r. simpl in Hr. congruence. }
    destruct (skip_space_decompose r) as (sep & Hrs & Hsep).
    destruct (skip_space r) as [|c' r'] eqn:Hskip'.
    + rewrite app_nil_r in Hrs. subst sep.
      repeat split; auto. exists pre, r. rewrite <- Hwr. auto.
    + pose proof (skip_space_starts_a_word _ Hskip') as Hc'.
      repeat split; auto.
      * now exists c', r'.
      * exists pre, sep. rewrite <- Hrs, <- Hwr. repeat split; auto.
        intros ->. simpl in Hrs. subst r. congruence.
Qed.

(** ** What one handler call sends and changes *)

Lemma traverse_raises {A B} (f : A -> result B) l x e :
  In x l -> f x = Raise e -> exists e', traverse f l = Raise e'.
Proof.
  induction l as [|y l IH]; simpl; [tauto|].
  intros [->|Hin] Hx.
  - rewrite Hx. eauto.
  - destruct (f y); [|eauto].
    destruct (IH Hin Hx) as [e' ->]. eauto.
Qed.

Section HandlerEffects.
Context {R : Runtime}.

Lemma handle_history_effects u w :
  data (snd (Coordinator.handle_history u w)) = data w
  /\ file (snd (Coordinator.handle_history u w)) = file w
  /\ requests (snd (Coordinator.handle_history u w)) = requests w
  /\ match fst (Coordinator.handle_history u w) with
     | Ok _ =>
         exists t, replies (snd (Coordinator.handle_history u w))
                   = replies w ++ [t]
     | Raise _ => snd (Coordinator.handle_history u w) = w
     end.
Proof.
  unfold Coordinator.handle_history.
  destruct (negb _); [simpl; eauto 6|].
  unfold bind, lift.
  destruct (py_iter _); [|simpl; auto].
  destruct (traverse _ _); simpl; eauto 6.
Qed.

Lemma handle_forecast_effects p u w :
  data (snd (Coordinator.handle_forecast p u w)) = data w
  /\ file (snd (Coordinator.handle_forecast p u w)) = file w
  /\ requests (snd (Coordinator.handle_forecast p u w))
     = match split_maxsplit_1 (Coordinator.message_text u) with
       | _ :: city :: _ => requests w ++ [(Forecast, city)]
       | _ => requests w
       end
  /\ match fst (Coordinator.handle_forecast p u w) with
     | Ok _ =>
         exists t, replies (snd (Coordinator.handle_forecast p u w))
                   = replies w ++ [t]
     | Raise _ => replies (snd (Coordinator.handle_forecast p u w)) = replies w
     end.
Proof.
  unfold Coordinator.handle_forecast.
  destruct (split_maxsplit_1 _) as [|cmd [|city rest]]; [simpl; eauto 6..|].
  unfold bind, lift, WeatherAPI.get_forecast_by_city.
  destruct (p Forecast city) as [fd|e]; [|simpl; auto].
  destruct (method_get fd _ _) as [cod|e]; [|simpl; auto].
  destruct (negb _); [simpl; eauto 6|].
  destruct (method_get fd _ _) as [fl|e]; [|simpl; auto].
  destruct (slice_5 fl) as [five|e]; [|simpl; auto].
  destruct (py_iter five) as [pts|e]; [|simpl; auto].
  destruct (traverse _ pts); simpl; eauto 6.
Qed.

Lemma handle_message_effects p u w :
  requests (snd (Coordinator.handle_message p u w))
  = requests w ++ [(CurrentWeather, Coordinator.message_text u)]
  /\ match fst (Coordinator.handle_message p u w) with
     | Ok _ =>
         exists t, replies (snd (Coordinator.handle_message p u w))
                   = replies w ++ [t]
     | Raise _ => replies (snd (Coordinator.handle_message p u w)) = replies w
     end.
Proof.
  unfold Coordinator.handle_message, bind, lift,
    WeatherAPI.get_weather_by_city.
  destruct (p CurrentWeather _) as [weather|e]; [|simpl; auto].
  destruct (method_get weather _ _) as [cod|e]; [|simpl; auto].
  destruct (negb _); [simpl; eauto|].
  destruct (getitem_str weather _) as [ws|e]; [|simpl; auto].
  destruct (getitem_0 ws) as [w0|e]; [|simpl; auto].
  destruct (getitem_str w0 _) as [description|e]; [|simpl; auto].
  destruct (getitem_str weather _) as [main|e]; [|simpl; auto].
  destruct (getitem_str main _) as [temperature|e]; [|simpl; auto].
  match goal with
  | |- context [DataStorage.save_weather_request ?a ?b ?c ?x] =>
      pose proof (save_weather_request_quiet x a b c) as Hq;
      cbv zeta in Hq; destruct Hq as [Hr Hq];
      destruct (DataStorage.save_weather_request a b c x) as [[[]|e] w2]
  end; simpl in *; [|auto].
  destruct (Coordinator.weather_text _ _ _); simpl; rewrite ?Hr, ?Hq; eauto.
Qed.

End HandlerEffects.

(** ** The history command *)

Section HistoryCommand.
Context {R : Runtime}.

Lemma history_line_head e l :
  Coordinator.history_line e = Ok l -> exists l', l = 67%N :: l'.
Proof.
  unfold Coordinator.history_line, and_then.
  destruct (getitem_str e (lit "city")) as [city|]; [|discriminate].
  destruct (getitem_str e (lit "weather")) as [weather|]; [|discriminate].
  destruct (method_get weather (lit "weather") _) as [ws|]; [|discriminate].
  destruct (getitem_0 ws) as [w0|]; [|discriminate].
  destruct (method_get w0 _ _) as [description|]; [|discriminate].
  destruct (method_get weather (lit "main") _) as [main|]; [|discriminate].
  destruct (method_get main _ _) as [temp|]; [|discriminate].
  intros [= <-]. eexists. reflexivity.
Qed.

Lemma get_user_history_of_store d u :
  history_store d -> DataStorage.get_user_history d u = VList (entries_of d u).
Proof.
  intros Hd. unfold DataStorage.get_user_history, entries_of.
  destruct (dict_get d (KInt u)) as [v|] eqn:E; auto.
  now destruct (Hd _ _ E) as [h ->].
Qed.

(** On a store of histories the history command either reports the empty
    history, or sends the lines of all entries, or raises. *)
Lemma handle_history_run u w :
  history_store (data w) ->
  Coordinator.handle_history u w
  = match entries_of (data w) (Coordinator.effective_user_id u) with
    | [] => (Ok tt, add_reply w Coordinator.history_empty_text)
    | es =>
        match traverse Coordinator.history_line es with
        | Ok lines => (Ok tt, add_reply w (join newline lines))
        | Raise e => (Raise e, w)
        end
    end.
Proof.
  intros Hd. unfold Coordinator.handle_history.
  rewrite get_user_history_of_store by assumption.
  destruct (entries_of _ _) as [|e es]; [reflexivity|].
  unfold truthy, negb, bind, lift, py_iter.
  destruct (traverse _ _); reflexivity.
Qed.

(** X2: on a store of histories, the history command answers with exactly
    the text "Your history is empty!" if and only if the store holds no
    entry for the user (no key for the user, or an empty list). *)
Theorem handle_history_empty_iff u w :
  history_store (data w) ->
  Coordinator.handle_history u w
  = (Ok tt, add_reply w Coordinator.history_empty_text)
  <-> entries_of (data w) (Coordinator.effective_user_id u) = [].
Proof.
  intros Hd. rewrite handle_history_run by assumption. split.
  - destruct (entries_of _ _) as [|e es]; [reflexivity|].
    destruct (traverse _ _) as [lines|err] eqn:Ht; [|discriminate].
    intros H. exfalso. injection H as H.
    apply app_inj_tail in H as [_ H].
    pose proof (traverse_Forall2 _ _ Ht) as HF.
    inversion HF as [|? l ? ls Hl _]; subst.
    apply history_line_head in Hl as [l' ->].
    destruct ls; discriminate.
  - now intros ->.
Qed.

(** X3: when the user has entries, the reply of the history command has
    one line for each entry, in the order of the entries and however many
    there are; if any one entry cannot be rendered the command raises and
    sends nothing, the lines of the other entries included. *)
Theorem handle_history_all_or_nothing u w :
  history_store (data w) ->
  entries_of (data w) (Coordinator.effective_user_id u) <> [] ->
  (forall lines,
     traverse Coordinator.history_line
       (entries_of (data w) (Coordinator.effective_user_id u)) = Ok lines ->
     Coordinator.handle_history u w = (Ok tt, add_reply w (join newline lines))
     /\ List.length lines
        = List.length (entries_of (data w) (Coordinator.effective_user_id u))
     /\ Forall2 (fun e line => Coordinator.history_line e = Ok line)
          (entries_of (data w) (Coordinator.effective_user_id u)) lines)
  /\ (forall e err,
        In e (entries_of (data w) (Coordinator.effective_user_id u)) ->
        Coordinator.history_line e = Raise err ->
        exists err', Coordinator.handle_history u w = (Raise err', w)).
Proof.
  intros Hd Hne. rewrite handle_history_run by assumption.
  destruct (entries_of _ _) as [|e0 es]; [congruence|]. split.
  - intros lines Ht. rewrite Ht. repeat split.
    + now apply traverse_length in Ht.
    + now apply traverse_Forall2.
  - intros e err Hin He.
    destruct (traverse_raises _ _ _ Hin He) as [err' ->]. eauto.
Qed.

(** X4: the history command only reads.  Whatever the store holds, it
    changes neither the store nor the file and sends no request to the
    provider; it sends one reply when it returns and leaves the world as it
    was when it raises. *)
Theorem handle_history_read_only u w :
  data (snd (Coordinator.handle_history u w)) = data w
  /\ file (snd (Coordinator.handle_history u w)) = file w
  /\ requests (snd (Coordinator.handle_history u w)) = requests w
  /\ (forall e, fst (Coordinator.handle_history u w) = Raise e ->
        snd (Coordinator.handle_history u w) = w)
  /\ (fst (Coordinator.handle_history u w) = Ok tt ->
        exists t, replies (snd (Coordinator.handle_history u w))
                  = replies w ++ [t]).
Proof.
  destruct (handle_history_effects u w) as (Hd & Hf & Hq & Hr).
  repeat split; auto.
  - intros e He. now rewrite He in Hr.
  - intros Hok. now rewrite Hok in Hr.
Qed.

End HistoryCommand.

(** ** The forecast command and the text message *)

Section ForecastAndMessage.
Context {R : Runtime}.

(** X5: the forecast command never writes.  Whatever the text and the
    response, it changes neither the store nor the file; it sends at most
    one request, to the forecast endpoint, and at most one reply. *)
Theorem handle_forecast_read_only p u w :
  data (snd (Coordinator.handle_forecast p u w)) = data w
  /\ file (snd (Coordinator.handle_forecast p u w)) = file w
  /\ (requests (snd (Coordinator.handle_forecast p u w)) = requests w
      \/ exists city,
           requests (snd (Coordinator.handle_forecast p u w))
           = requests w ++ [(Forecast, city)])
  /\ (replies (snd (Coordinator.handle_forecast p u w)) = replies w
      \/ exists t,
           replies (snd (Coordinator.handle_forecast p u w))
           = replies w ++ [t]).
Proof.
  destruct (handle_forecast_effects p u w) as (Hd & Hf & Hq & Hr).
  repeat split; auto.
  - rewrite Hq.
    destruct (split_maxsplit_1 _) as [|cmd [|city rest]]; eauto.
  - destruct (fst (Coordinator.handle_forecast p u w)); auto.
Qed.

(** X6: the city a forecast command asks the provider for is everything
    that follows the command word and the whitespace after it: whitespace
    inside and at the end of that remainder is kept, so a city of several
    words is sent whole. *)
Theorem handle_forecast_city_is_remainder p u w pre x word s sep c rest :
  Coordinator.message_text u = pre ++ (x :: word) ++ (s :: sep) ++ c :: rest ->
  forallb isspace pre = true ->
  forallb (fun y => negb (isspace y)) (x :: word) = true ->
  forallb isspace (s :: sep) = true ->
  isspace c = false ->
  requests (snd (Coordinator.handle_forecast p u w))
  = requests w ++ [(Forecast, c :: rest)].
Proof.
  intros Htext Hpre Hw Hsep Hc.
  destruct (handle_forecast_effects p u w) as (_ & _ & Hq & _).
  rewrite Hq, Htext, split_with_argument by assumption. reflexivity.
Qed.

(** X7: a text message costs exactly one request, to the current-weather
    endpoint, for the whole text as it was typed, whatever comes back.  An
    exception of the request leaves the handler as it is, and a response
    that is not an object ends it with [AttributeError]; in both cases
    nothing else happens.  No call sends more than one reply. *)
Theorem handle_message_one_request p u w :
  requests (snd (Coordinator.handle_message p u w))
  = requests w ++ [(CurrentWeather, Coordinator.message_text u)]
  /\ (forall e,
        p CurrentWeather (Coordinator.message_text u) = Raise e ->
        Coordinator.handle_message p u w
        = (Raise e, add_request w CurrentWeather (Coordinator.message_text u)))
  /\ (forall v,
        p CurrentWeather (Coordinator.message_text u) = Ok v ->
        (forall d, v <> VDict d) ->
        Coordinator.handle_message p u w
        = (Raise AttributeError,
           add_request w CurrentWeather (Coordinator.message_text u)))
  /\ (replies (snd (Coordinator.handle_message p u w)) = replies w
      \/ exists t,
           replies (snd (Coordinator.handle_message p u w))
           = replies w ++ [t]).
Proof.
  destruct (handle_message_effects p u w) as (Hq & Hr).
  repeat split; auto.
  - intros e He.
    unfold Coordinator.handle_message, bind, WeatherAPI.get_weather_by_city.
    now rewrite He.
  - intros v Hv Hnd.
    unfold Coordinator.handle_message, bind, lift,
      WeatherAPI.get_weather_by_city.
    rewrite Hv. destruct v; try reflexivity. now destruct (Hnd d).
  - destruct (fst (Coordinator.handle_message p u w)); auto.
Qed.

(** X8: the entry is written before the reply is built.  When the response
    has the status 200 and all the fields but its description is not a
    string, the entry is appended to the user's history and written to the
    file, and then the handler raises [AttributeError] without a reply. *)
Theorem handle_message_saved_without_reply p u w d description temperature :
  p CurrentWeather (Coordinator.message_text u) = Ok (VDict d) ->
  eq_200 (field d "cod" VNone) = true ->
  message_fields (VDict d) = Ok (description, temperature) ->
  (forall s, description <> VStr s) ->
  history_store (data w) ->
  file w <> Denied ->
  fst (Coordinator.handle_message p u w) = Raise AttributeError
  /\ replies (snd (Coordinator.handle_message p u w)) = replies w
  /\ entries_of (data (snd (Coordinator.handle_message p u w)))
       (Coordinator.effective_user_id u)
     = entries_of (data w) (Coordinator.effective_user_id u)
       ++ [DataStorage.entry (Coordinator.message_text u) (VDict d)]
  /\ file (snd (Coordinator.handle_message p u w))
     = Document
         (Json.dump (VDict (data (snd (Coordinator.handle_message p u w))))).
Proof.
  intros Hp Hcod Hfields Hstr Hd Hf.
  rewrite (handle_message_run p u w Hp). cbv zeta. rewrite Hcod, Hfields.
  set (w1 := add_request w CurrentWeather (Coordinator.message_text u)).
  assert (Hd1 : history_store (data w1)) by exact Hd.
  pose proof (@save_weather_request_entries w1
                (Coordinator.effective_user_id u)
                (Coordinator.message_text u) (VDict d) Hd1) as Hnew.
  rewrite (@save_weather_request_run w1 (Coordinator.effective_user_id u)
             (Coordinator.message_text u) (VDict d) Hd1) in *.
  rewrite save_data_result in * by exact Hf.
  assert (Hcap : Coordinator.weather_text (Coordinator.message_text u)
                   description temperature = Raise AttributeError).
  { unfold Coordinator.weather_text, method_capitalize, and_then.
    destruct description; try reflexivity. now destruct (Hstr s). }
  rewrite Hcap. repeat split. exact Hnew.
Qed.

End ForecastAndMessage.

(** ** Writing the store *)

(** X9: when the file cannot be written, [save_weather_request] raises
    [PermissionError] after the entry has been appended in memory: the
    store has the new entry, the file has not. *)
Theorem save_weather_request_write_denied w u city weather :
  history_store (data w) ->
  file w = Denied ->
  fst (DataStorage.save_weather_request u city weather w) = Raise PermissionError
  /\ entries_of (data (snd (DataStorage.save_weather_request u city weather w))) u
     = entries_of (data w) u ++ [DataStorage.entry city weather]
  /\ file (snd (DataStorage.save_weather_request u city weather w)) = Denied.
Proof.
  intros Hd Hf. split; [|split].
  - rewrite save_weather_request_run by assumption.
    unfold DataStorage._save_data. cbn [file set_data]. now rewrite Hf.
  - now apply save_weather_request_entries.
  - rewrite save_weather_request_run by assumption.
    unfold DataStorage._save_data. cbn [file set_data]. now rewrite Hf.
Qed.

(** X10: every call of [save_weather_request] that can write the file
    returns normally and leaves in the file the document of the whole store
    as it is in memory after the call; what the file held before, a
    document, other text or nothing, plays no part. *)
Theorem save_weather_request_rewrites_file w u city weather :
  history_store (data w) ->
  file w <> Denied ->
  fst (DataStorage.save_weather_request u city weather w) = Ok tt
  /\ file (snd (DataStorage.save_weather_request u city weather w))
     = Document
         (Json.dump
            (VDict (data (snd (DataStorage.save_weather_request u city
                                 weather w)))))
  /\ forall f, f <> Denied ->
       file (snd (DataStorage.save_weather_request u city weather
                    (set_file w f)))
       = file (snd (DataStorage.save_weather_request u city weather w)).
Proof.
  intros Hd Hf. rewrite save_weather_request_run by assumption.
  rewrite save_data_result by exact Hf. repeat split.
  intros f Hf'.
  rewrite (@save_weather_request_run (set_file w f) u city weather Hd).
  rewrite save_data_result by exact Hf'. reflexivity.
Qed.

Lemma after_saves_step c cs w :
  after_saves (c :: cs) w
  = after_saves cs
      (snd (DataStorage.save_weather_request (caller c) (snd (fst c)) (snd c) w)).
Proof. reflexivity. Qed.

(** X11: after any sequence of calls of [save_weather_request] on a store
    of histories, the history of a user is what it was before followed by
    one entry for each call made for that user, in the order of the calls;
    two calls for one city give two entries. *)
Theorem after_saves_entries cs w u :
  history_store (data w) ->
  history_store (data (after_saves cs w))
  /\ entries_of (data (after_saves cs w)) u
     = entries_of (data w) u
       ++ List.map (fun c => DataStorage.entry (snd (fst c)) (snd c))
            (List.filter (fun c => Z.eqb (caller c) u) cs).
Proof.
  revert w. induction cs as [|c cs IH]; intros w Hd.
  - simpl. now rewrite app_nil_r.
  - rewrite after_saves_step.
    set (w1 := snd (DataStorage.save_weather_request (caller c)
                      (snd (fst c)) (snd c) w)).
    assert (Hd1 : history_store (data w1)).
    { unfold w1. rewrite save_weather_request_data by assumption.
      now apply history_store_set. }
    destruct (IH w1 Hd1) as [Hstore Hent]. split; [exact Hstore|].
    rewrite Hent. simpl. destruct (Z.eqb (caller c) u) eqn:E.
    + apply Z.eqb_eq in E. subst u. unfold w1.
      rewrite save_weather_request_entries by assumption.
      simpl. now rewrite <- app_assoc.
    + apply Z.eqb_neq in E. f_equal. apply entries_of_same_key.
      unfold w1. apply save_weather_request_other_keys. congruence.
Qed.

(** ** What comes back from the file *)

Lemma existsb_keys_set_other d k k' v :
  k <> k' ->
  existsb (pykey_eqb k) (List.map fst (dict_set d k' v))
  = existsb (pykey_eqb k) (List.map fst d).
Proof.
  intros Hne. induction d as [|[k0 v0] d IH]; simpl.
  - apply pykey_eqb_neq in Hne. now rewrite Hne.
  - destruct (pykey_eqb k' k0); simpl; [reflexivity|]. now rewrite IH.
Qed.

Lemma distinct_str_keys_set d s v :
  distinct_str_keys (List.map fst d) = true ->
  distinct_str_keys (List.map fst (dict_set d (KStr s) v)) = true.
Proof.
  induction d as [|[k0 v0] d IH]; simpl; auto.
  destruct k0 as [n|s0]; [discriminate|]. intros H.
  apply andb_prop in H as [Hk Hd].
  destruct (str_eqb s s0) eqn:E; simpl.
  - now rewrite Hk, Hd.
  - rewrite existsb_keys_set_other, Hk, IH; auto.
    intros [= ->]. now rewrite str_eqb_refl in E.
Qed.

Lemma values_shaped_set d k v :
  forallb (fun kv => json_shaped (snd kv)) d = true ->
  json_shaped v = true ->
  forallb (fun kv => json_shaped (snd kv)) (dict_set d k v) = true.
Proof.
  intros Hd Hv. induction d as [|[k0 v0] d IH]; simpl in *.
  - now rewrite Hv.
  - apply andb_prop in Hd as [H0 Hd].
    destruct (pykey_eqb k k0); simpl.
    + now rewrite Hv, Hd.
    + now rewrite H0, IH.
Qed.

Lemma dict_of_text_pairs_shaped (l : list (pykey * value)) acc :
  json_shaped (VDict acc) = true ->
  Forall (fun kv => (exists s, fst kv = KStr s) /\ json_shaped (snd kv) = true) l ->
  json_shaped
    (VDict (fold_left (fun a kv => dict_set a (fst kv) (snd kv)) l acc)) = true.
Proof.
  intros Hacc Hl. revert acc Hacc.
  induction Hl as [|[k v] l [[s Hk] Hv] _ IH]; intros acc Hacc; simpl; auto.
  apply IH. simpl in Hk, Hv. subst k.
  simpl in Hacc. apply andb_prop in Hacc as [H1 H2]. simpl.
  now rewrite distinct_str_keys_set, values_shaped_set.
Qed.

(** Whatever the document, what [json.load] makes of it has string keys
    only and no key twice. *)
Lemma loaded_json_shaped j : json_shaped (Json.load j) = true.
Proof.
  induction j as [| | | | |l IH|m IH] using json_nested_ind;
    simpl; try reflexivity.
  - induction IH as [|x l Hx _ IHl]; simpl; auto. now rewrite Hx.
  - unfold dict_of_pairs. apply dict_of_text_pairs_shaped; [reflexivity|].
    induction IH as [|[k x] m Hx _ IHm]; simpl; constructor; auto.
    simpl. eauto.
Qed.

(** X13: reading the store back is stable.  The store read from the file
    after a save, saved and read once more, is the same store: one restart
    can change the keys, a second one changes nothing further. *)
Theorem reload_is_stable (w : world) :
  file w <> Denied ->
  exists d1,
    DataStorage._load_data (file (snd (DataStorage._save_data w)))
    = Ok (VDict d1)
    /\ forall w1, data w1 = d1 -> file w1 <> Denied ->
         DataStorage._load_data (file (snd (DataStorage._save_data w1)))
         = Ok (VDict d1).
Proof.
  intros Hf. rewrite save_data_result by assumption.
  exists (dict_of_pairs
            (List.map (fun kj => (KStr (fst kj), Json.load (snd kj)))
               (List.map (fun kv => (Json.key_text (fst kv), Json.dump (snd kv)))
                  (data w)))).
  split; [reflexivity|].
  intros w1 Hd1 Hf1. rewrite <- Hd1.
  apply reload_string_keyed_store_aux; auto.
  rewrite Hd1.
  exact (loaded_json_shaped (Json.dump (VDict (data w)))).
Qed.

Lemma lit_inj a b : lit a = lit b -> a = b.
Proof.
  unfold lit. intros H.
  rewrite <- (string_of_list_ascii_of_string a),
    <- (string_of_list_ascii_of_string b).
  f_equal. revert H.
  generalize (list_ascii_of_string a), (list_ascii_of_string b).
  induction l as [|x l IH]; intros [|y l']; simpl; try discriminate; auto.
  intros [= Hxy Hl]. f_equal; auto.
  rewrite <- (ascii_N_embedding x), <- (ascii_N_embedding y). now rewrite Hxy.
Qed.

Lemma to_int_not_nil z : Z.to_int z <> Decimal.Pos Decimal.Nil
                         /\ Z.to_int z <> Decimal.Neg Decimal.Nil.
Proof.
  destruct z as [|p|p]; simpl; split; try discriminate;
    intros [= H]; now apply (DecimalPos.Unsigned.to_uint_nonnil p).
Qed.

(** Different integers have different decimal texts. *)
Lemma str_of_int_inj a b : str_of_int a = str_of_int b -> a = b.
Proof.
  unfold str_of_int. intros H. apply lit_inj in H.
  apply (f_equal NilZero.int_of_string) in H.
  destruct (to_int_not_nil a) as [Ha1 Ha2].
  destruct (to_int_not_nil b) as [Hb1 Hb2].
  rewrite !NilZero.isi in H by assumption.
  injection H as H. apply (f_equal Z.of_int) in H.
  now rewrite !DecimalZ.of_to in H.
Qed.

Lemma with_text_keys_get d u :
  int_keyed d = true ->
  dict_get (with_text_keys d) (KStr (str_of_int u)) = dict_get d (KInt u).
Proof.
  induction d as [|[k v] d IH]; simpl; auto.
  destruct k as [n|s]; [|discriminate]. simpl. intros Hd.
  destruct (Z.eqb u n) eqn:E.
  - apply Z.eqb_eq in E. subst n. now rewrite str_eqb_refl.
  - destruct (str_eqb (str_of_int u) (str_of_int n)) eqn:E'; auto.
    apply str_eqb_eq, str_of_int_inj in E'. subst n.
    now rewrite Z.eqb_refl in E.
Qed.

Lemma with_text_keys_NoDup d :
  int_keyed d = true ->
  NoDup (List.map fst d) -> NoDup (List.map fst (with_text_keys d)).
Proof.
  intros Hint Hnd. unfold with_text_keys. rewrite map_map. simpl.
  rewrite <- (map_map fst (fun k => KStr (Json.key_text k))).
  apply NoDup_map_NoDup_ForallPairs; auto.
  intros k k' Hk Hk' [= E].
  assert (Hkey : forall x, In x (List.map fst d) -> exists n, x = KInt n).
  { clear -Hint. induction d as [|[k0 v0] d IH]; simpl; [tauto|].
    simpl in Hint. apply andb_prop in Hint as [H0 Hd].
    intros x [<-|Hx]; auto. destruct k0; [eauto|discriminate]. }
  destruct (Hkey _ Hk) as [n ->]. destruct (Hkey _ Hk') as [n' ->].
  simpl in E. now apply str_of_int_inj in E as ->.
Qed.

Lemma reload_int_keyed_store (w : world) :
  file w <> Denied ->
  int_keyed (data w) = true ->
  NoDup (List.map fst (data w)) ->
  forallb (fun kv => json_shaped (snd kv)) (data w) = true ->
  DataStorage._load_data (file (snd (DataStorage._save_data w)))
  = Ok (VDict (with_text_keys (data w))).
Proof.
  intros Hf Hint Hnd Hvals.
  rewrite save_data_result by assumption.
  unfold DataStorage._load_data.
  cbn [snd file set_file DataStorage.open_read and_then DataStorage.json_load].
  cbn [Json.dump Json.load]. rewrite map_map. cbn [fst snd].
  assert (Hmap : List.map
                   (fun x => (KStr (Json.key_text (fst x)),
                              Json.load (Json.dump (snd x)))) (data w)
                 = with_text_keys (data w)).
  { unfold with_text_keys. apply map_ext_in. intros [k v] Hin. simpl.
    rewrite load_dump_json_shaped; auto.
    rewrite forallb_forall in Hvals. exact (Hvals _ Hin). }
  rewrite Hmap. unfold dict_of_pairs.
  rewrite fold_dict_set_distinct; auto.
  now apply with_text_keys_NoDup.
Qed.

(** C6: after a restart [get_user_history] does not return the stored
    entries of a user who has some.  A store with [int] keys, as
    [save_weather_request] builds it, in which user [u] has the history
    [h], is written and read back: the store read back holds [h], under
    the key [str(u)], and [get_user_history] returns the empty list for
    [u] where it returned [h] before. *)
Theorem get_user_history_misses_reloaded_entries (w : world) (u : Z) (h : value) :
  file w <> Denied ->
  int_keyed (data w) = true ->
  NoDup (List.map fst (data w)) ->
  forallb (fun kv => json_shaped (snd kv)) (data w) = true ->
  dict_get (data w) (KInt u) = Some h ->
  DataStorage.get_user_history (data w) u = h
  /\ exists d',
       DataStorage._load_data (file (snd (DataStorage._save_data w)))
       = Ok (VDict d')
       /\ dict_get d' (KStr (str_of_int u)) = Some h
       /\ DataStorage.get_user_history d' u = VList [].
Proof.
  intros Hf Hint Hnd Hvals Hu. split.
  - unfold DataStorage.get_user_history. now rewrite Hu.
  - pose proof (@reload_int_keyed_store w Hf Hint Hnd Hvals) as Hload.
    exists (with_text_keys (data w)). split; [exact Hload|]. split.
    + now rewrite with_text_keys_get.
    + unfold DataStorage.get_user_history.
      now rewrite (loaded_store_has_no_int_key _ u Hload).
Qed.

(** X14: the histories do reach the file.  A store with [int] keys, as the
    running bot builds it, comes back from a save and a reload with the
    same histories in the same order, each under the decimal text of its
    user identifier: what is stored for user [u] is found again under the
    key [str(u)]. *)
Theorem reload_renames_int_keys (w : world) :
  file w <> Denied ->
  int_keyed (data w) = true ->
  NoDup (List.map fst (data w)) ->
  forallb (fun kv => json_shaped (snd kv)) (data w) = true ->
  DataStorage._load_data (file (snd (DataStorage._save_data w)))
  = Ok (VDict (with_text_keys (data w)))
  /\ forall u,
       dict_get (with_text_keys (data w)) (KStr (str_of_int u))
       = dict_get (data w) (KInt u).
Proof.
  intros Hf Hint Hnd Hvals. split; [|intros u; now apply with_text_keys_get].
  now apply reload_int_keyed_store.
Qed.

(** ** Events one after the other *)

Lemma traverse_app {A B} (f : A -> result B) l x ys y :
  traverse f l = Ok ys -> f x = Ok y -> traverse f (l ++ [x]) = Ok (ys ++ [y]).
Proof.
  revert ys. induction l as [|a l IH]; simpl; intros ys Hl Hx.
  - injection Hl as <-. now rewrite Hx.
  - destruct (f a) as [b|]; [|discriminate].
    destruct (traverse f l) as [bs|]; [|discriminate].
    injection Hl as <-. now rewrite (IH bs eq_refl Hx).
Qed.

Lemma getitem_then_get v k x default :
  getitem_str v k = Ok x -> method_get v k default = Ok x.
Proof.
  destruct v; simpl; try discriminate.
  destruct (dict_get d (KStr k)); [auto|discriminate].
Qed.

Section EventSequences.
Context {R : Runtime}.

(** The line the history command shows for a response that
    [handle_message] could take its fields from. *)
Lemma history_line_of_recorded city d description temperature :
  message_fields (VDict d) = Ok (description, temperature) ->
  Coordinator.history_line (DataStorage.entry city (VDict d))
  = Ok (lit "City: " ++ city ++ lit ", Description: " ++ format description
        ++ lit ", Temp: " ++ format temperature ++ degree_sign ++ lit "C").
Proof.
  unfold message_fields, Coordinator.history_line, DataStorage.entry.
  change (getitem_str
            (VDict [(KStr (lit "city"), VStr city);
                    (KStr (lit "weather"), VDict d)]) (lit "city"))
    with (@Ok value (VStr city)).
  change (getitem_str
            (VDict [(KStr (lit "city"), VStr city);
                    (KStr (lit "weather"), VDict d)]) (lit "weather"))
    with (@Ok value (VDict d)).
  cbv [and_then].
  destruct (getitem_str (VDict d) (lit "weather")) as [ws|] eqn:H1;
    [|discriminate].
  destruct (getitem_0 ws) as [w0|] eqn:H2; [|discriminate].
  destruct (getitem_str w0 (lit "description")) as [x|] eqn:H3;
    [|discriminate].
  destruct (getitem_str (VDict d) (lit "main")) as [main|] eqn:H4;
    [|discriminate].
  destruct (getitem_str main (lit "temp")) as [t|] eqn:H5; [|discriminate].
  intros [= <- <-].
  rewrite (getitem_then_get _ _ _ H1), H2, (getitem_then_get _ _ _ H3),
    (getitem_then_get _ _ _ H4), (getitem_then_get _ _ _ H5).
  reflexivity.
Qed.

(** X17: a current-weather request that was recorded shows up in the
    history command that follows it: the reply has the lines of the
    earlier entries and, last, the line of the new entry, with the text as
    typed, the description as the provider gave it (not capitalized) and
    the temperature. *)
Theorem history_shows_recorded_request p u w d description temperature lines :
  p CurrentWeather (Coordinator.message_text u) = Ok (VDict d) ->
  eq_200 (field d "cod" VNone) = true ->
  message_fields (VDict d) = Ok (description, temperature) ->
  history_store (data w) ->
  traverse Coordinator.history_line
    (entries_of (data w) (Coordinator.effective_user_id u)) = Ok lines ->
  Coordinator.handle_history u (snd (Coordinator.handle_message p u w))
  = (Ok tt,
     add_reply (snd (Coordinator.handle_message p u w))
       (join newline
          (lines
           ++ [lit "City: " ++ Coordinator.message_text u
               ++ lit ", Description: " ++ format description
               ++ lit ", Temp: " ++ format temperature
               ++ degree_sign ++ lit "C"]))).
Proof.
  intros Hp Hcod Hfields Hd Hlines.
  destruct (handle_entries (Coordinator.TextMessage p u) w
              (Coordinator.effective_user_id u) Hd) as [Hd1 _].
  cbn [Coordinator.handle] in Hd1.
  destruct (handle_message_records p u w Hp Hcod Hfields Hd) as [Hent _].
  set (w1 := snd (Coordinator.handle_message p u w)) in *.
  assert (Hrun : Coordinator.handle_history u w1
                 = match
                     traverse Coordinator.history_line
                       (entries_of (data w1) (Coordinator.effective_user_id u))
                   with
                   | Ok ls => (Ok tt, add_reply w1 (join newline ls))
                   | Raise e => (Raise e, w1)
                   end).
  { rewrite handle_history_run by assumption. rewrite Hent.
    destruct (entries_of (data w) (Coordinator.effective_user_id u));
      reflexivity. }
  rewrite Hrun, Hent.
  rewrite (traverse_app _ _ _ Hlines
             (@history_line_of_recorded (Coordinator.message_text u) d
                description temperature Hfields)).
  reflexivity.
Qed.

Lemma handle_sends_at_most_one e w :
  exists rs qs,
    replies (snd (Coordinator.handle e w)) = replies w ++ rs
    /\ requests (snd (Coordinator.handle e w)) = requests w ++ qs
    /\ (List.length rs <= 1)%nat /\ (List.length qs <= 1)%nat.
Proof.
  destruct e as [p u|u|p u]; cbn [Coordinator.handle].
  - destruct (handle_message_effects p u w) as (Hq & Hr).
    rewrite Hq.
    destruct (fst (Coordinator.handle_message p u w)).
    + destruct Hr as [t ->]. exists [t]. eexists. simpl. auto.
    + rewrite Hr. exists []. eexists. rewrite app_nil_r. simpl. auto.
  - destruct (handle_history_effects u w) as (_ & _ & Hq & Hr).
    rewrite Hq.
    destruct (fst (Coordinator.handle_history u w)).
    + destruct Hr as [t ->]. exists [t], []. rewrite app_nil_r. simpl. auto.
    + rewrite Hr. exists [], []. rewrite !app_nil_r. simpl. auto.
  - destruct (handle_forecast_effects p u w) as (_ & _ & Hq & Hr).
    rewrite Hq.
    assert (Hqs : exists qs,
               match split_maxsplit_1 (Coordinator.message_text u) with
               | _ :: city :: _ => requests w ++ [(Forecast, city)]
               | _ => requests w
               end = requests w ++ qs /\ (List.length qs <= 1)%nat).
    { destruct (split_maxsplit_1 _) as [|cmd [|city rest]].
      - exists []. rewrite app_nil_r. simpl. auto.
      - exists []. rewrite app_nil_r. simpl. auto.
      - eexists. simpl. auto. }
    destruct Hqs as (qs & -> & Hlen).
    destruct (fst (Coordinator.handle_forecast p u w)).
    + destruct Hr as [t ->]. exists [t], qs. simpl. auto.
    + rewrite Hr. exists [], qs. rewrite app_nil_r. simpl. auto.
Qed.

(** X18: no retries and nothing taken back.  Along any sequence of text
    messages, history commands and forecast commands, the replies and the
    requests made before stay as they are, and each event adds at most one
    reply and at most one request. *)
Theorem run_sends_at_most_one_per_event es w :
  exists rs qs,
    replies (Coordinator.run es w) = replies w ++ rs
    /\ requests (Coordinator.run es w) = requests w ++ qs
    /\ (List.length rs <= List.length es)%nat
    /\ (List.length qs <= List.length es)%nat.
Proof.
  revert w. induction es as [|e es IH]; intros w.
  - exists [], []. simpl. rewrite !app_nil_r. auto.
  - unfold Coordinator.run in *. simpl.
    destruct (handle_sends_at_most_one e w) as (r1 & q1 & Hr1 & Hq1 & Lr & Lq).
    destruct (IH (snd (Coordinator.handle e w)))
      as (rs & qs & Hrs & Hqs & Lrs & Lqs).
    exists (r1 ++ rs), (q1 ++ qs).
    rewrite Hrs, Hqs, Hr1, Hq1, <- !app_assoc, !length_app.
    repeat split; lia.
Qed.

End EventSequences.

(** ** The further properties at concrete inputs *)

Lemma empty_store_is_history_store : history_store [].
Proof. intros k v H. discriminate. Defined.

Lemma handle_history_empty_iff_witness :
  history_store (data empty_world)
  /\ entries_of (data empty_world)
       (Coordinator.effective_user_id paris_message) = []
  /\ @Coordinator.handle_history ascii_runtime paris_message empty_world
     = (Ok tt, add_reply empty_world Coordinator.history_empty_text).
Proof.
  split; [exact empty_store_is_history_store|]. split; [reflexivity|].
  exact (proj2 (@handle_history_empty_iff ascii_runtime paris_message
                  empty_world empty_store_is_history_store) eq_refl).
Defined.

Lemma handle_history_all_or_nothing_witness :
  history_store (data sample_world)
  /\ entries_of (data sample_world)
       (Coordinator.effective_user_id paris_message) <> []
  /\ @Coordinator.handle_history ascii_runtime paris_message sample_world
     = (Ok tt,
        add_reply sample_world
          (join newline
             [lit "City: Oslo, Description: No description, Temp: No temperature data"
              ++ degree_sign ++ lit "C"])).
Proof.
  assert (Hne : entries_of (data sample_world)
                  (Coordinator.effective_user_id paris_message) <> [])
    by discriminate.
  split; [exact sample_world_is_history_store|]. split; [exact Hne|].
  exact (proj1 (proj1 (@handle_history_all_or_nothing ascii_runtime
                         paris_message sample_world
                         sample_world_is_history_store Hne) _ eq_refl)).
Defined.

Lemma handle_forecast_city_is_remainder_witness :
  (Coordinator.message_text new_york_forecast_command
   = [] ++ lit "/forecast" ++ lit " " ++ lit "New York "
   /\ forallb isspace [] = true
   /\ forallb (fun y => negb (isspace y)) (lit "/forecast") = true
   /\ forallb isspace (lit " ") = true
   /\ isspace 78%N = false)
  /\ requests (snd (@Coordinator.handle_forecast ascii_runtime
                      (always sample_forecast) new_york_forecast_command
                      empty_world))
     = requests empty_world ++ [(Forecast, lit "New York ")].
Proof.
  split; [repeat split|].
  exact (@handle_forecast_city_is_remainder ascii_runtime
           (always sample_forecast) new_york_forecast_command empty_world
           [] 47%N (lit "forecast") 32%N [] 78%N (lit "ew York ")
           eq_refl eq_refl eq_refl eq_refl eq_refl).
Defined.

Lemma null_is_not_a_string : forall s, VNone <> VStr s.
Proof. intros s. discriminate. Defined.

Lemma handle_message_saved_without_reply_witness :
  (always payload_null_description CurrentWeather
     (Coordinator.message_text paris_message) = Ok payload_null_description
   /\ message_fields payload_null_description = Ok (VNone, VInt 5)
   /\ history_store (data empty_world)
   /\ file empty_world <> Denied)
  /\ fst (@Coordinator.handle_message ascii_runtime
            (always payload_null_description) paris_message empty_world)
     = Raise AttributeError
  /\ replies (snd (@Coordinator.handle_message ascii_runtime
                     (always payload_null_description) paris_message
                     empty_world))
     = replies empty_world
  /\ entries_of
       (data (snd (@Coordinator.handle_message ascii_runtime
                     (always payload_null_description) paris_message
                     empty_world))) 7
     = [DataStorage.entry (lit "Paris") payload_null_description].
Proof.
  assert (Hf : file empty_world <> Denied) by discriminate.
  split; [repeat split; [exact empty_store_is_history_store|exact Hf]|].
  destruct (@handle_message_saved_without_reply ascii_runtime
              (always payload_null_description) paris_message empty_world
              [(KStr (lit "cod"), VInt 200);
               (KStr (lit "weather"),
                VList [VDict [(KStr (lit "description"), VNone)]]);
               (KStr (lit "main"), VDict [(KStr (lit "temp"), VInt 5)])]
              VNone (VInt 5) eq_refl eq_refl eq_refl null_is_not_a_string
              empty_store_is_history_store Hf)
    as (H1 & H2 & H3 & _).
  split; [exact H1|]. split; [exact H2|exact H3].
Defined.

Lemma save_weather_request_write_denied_witness :
  (history_store (data read_only_world) /\ file read_only_world = Denied)
  /\ fst (DataStorage.save_weather_request 7 (lit "Paris") paris_payload
            read_only_world) = Raise PermissionError
  /\ entries_of
       (data (snd (DataStorage.save_weather_request 7 (lit "Paris")
                     paris_payload read_only_world))) 7
     = [DataStorage.entry (lit "Paris") paris_payload]
  /\ file (snd (DataStorage.save_weather_request 7 (lit "Paris")
                  paris_payload read_only_world)) = Denied.
Proof.
  split; [split; [exact empty_store_is_history_store|reflexivity]|].
  exact (@save_weather_request_write_denied read_only_world 7 (lit "Paris")
           paris_payload empty_store_is_history_store eq_refl).
Defined.

Lemma save_weather_request_rewrites_file_witness :
  (history_store (data sample_world) /\ file sample_world <> Denied)
  /\ fst (DataStorage.save_weather_request 8 (lit "Paris") paris_payload
            sample_world) = Ok tt
  /\ file (snd (DataStorage.save_weather_request 8 (lit "Paris")
                  paris_payload sample_world))
     = Document
         (Json.dump
            (VDict
               [(KInt 7,
                 VList [DataStorage.entry (lit "Oslo") payload_status_only]);
                (KInt 8,
                 VList [DataStorage.entry (lit "Paris") paris_payload])])).
Proof.
  assert (Hf : file sample_world <> Denied) by discriminate.
  split; [split; [exact sample_world_is_history_store|exact Hf]|].
  destruct (@save_weather_request_rewrites_file sample_world 8 (lit "Paris")
              paris_payload sample_world_is_history_store Hf)
    as (H1 & H2 & _).
  split; [exact H1|exact H2].
Defined.

Lemma after_saves_entries_witness :
  history_store (data empty_world)
  /\ entries_of
       (data (after_saves
                [(7, lit "Paris", paris_payload);
                 (8, lit "Oslo", payload_status_only);
                 (7, lit "Paris", paris_payload)] empty_world)) 7
     = [DataStorage.entry (lit "Paris") paris_payload;
        DataStorage.entry (lit "Paris") paris_payload].
Proof.
  split; [exact empty_store_is_history_store|].
  exact (proj2 (@after_saves_entries
                  [(7, lit "Paris", paris_payload);
                   (8, lit "Oslo", payload_status_only);
                   (7, lit "Paris", paris_payload)]
                  empty_world 7 empty_store_is_history_store)).
Defined.

Lemma reload_is_stable_witness :
  file sample_world <> Denied
  /\ exists d1,
       DataStorage._load_data (file (snd (DataStorage._save_data sample_world)))
       = Ok (VDict d1)
       /\ DataStorage._load_data
            (file (snd (DataStorage._save_data (mkWorld d1 Missing [] []))))
          = Ok (VDict d1).
Proof.
  assert (Hf : file sample_world <> Denied) by discriminate.
  split; [exact Hf|].
  destruct (@reload_is_stable sample_world Hf) as (d1 & Hload & Hagain).
  exists d1. split; [exact Hload|].
  apply Hagain; [reflexivity|discriminate].
Defined.

Lemma sample_world_keys_distinct : NoDup (List.map fst (data sample_world)).
Proof. simpl. constructor; [intros []|constructor]. Defined.

Lemma reload_renames_int_keys_witness :
  (file sample_world <> Denied
   /\ int_keyed (data sample_world) = true
   /\ NoDup (List.map fst (data sample_world))
   /\ forallb (fun kv => json_shaped (snd kv)) (data sample_world) = true)
  /\ DataStorage._load_data (file (snd (DataStorage._save_data sample_world)))
     = Ok (VDict
             [(KStr (lit "7"),
               VList [DataStorage.entry (lit "Oslo") payload_status_only])]).
Proof.
  assert (Hf : file sample_world <> Denied) by discriminate.
  split; [repeat split; [exact Hf|exact sample_world_keys_distinct]|].
  exact (proj1 (@reload_renames_int_keys sample_world Hf eq_refl
                  sample_world_keys_distinct eq_refl)).
Defined.

Lemma get_user_history_misses_reloaded_entries_witness :
  (file sample_world <> Denied
   /\ int_keyed (data sample_world) = true
   /\ NoDup (List.map fst (data sample_world))
   /\ forallb (fun kv => json_shaped (snd kv)) (data sample_world) = true
   /\ dict_get (data sample_world) (KInt 7)
      = Some (VList [DataStorage.entry (lit "Oslo") payload_status_only]))
  /\ DataStorage.get_user_history (data sample_world) 7
     = VList [DataStorage.entry (lit "Oslo") payload_status_only]
  /\ exists d',
       DataStorage._load_data (file (snd (DataStorage._save_data sample_world)))
       = Ok (VDict d')
       /\ dict_get d' (KStr (lit "7"))
          = Some (VList [DataStorage.entry (lit "Oslo") payload_status_only])
       /\ DataStorage.get_user_history d' 7 = VList [].
Proof.
  assert (Hf : file sample_world <> Denied) by discriminate.
  split; [repeat split; [exact Hf|exact sample_world_keys_distinct]|].
  exact (@get_user_history_misses_reloaded_entries sample_world 7
           (VList [DataStorage.entry (lit "Oslo") payload_status_only])
           Hf eq_refl sample_world_keys_distinct eq_refl eq_refl).
Defined.

Lemma history_shows_recorded_request_witness :
  (always paris_payload CurrentWeather (Coordinator.message_text paris_message)
   = Ok paris_payload
   /\ message_fields paris_payload
      = Ok (VStr (lit "clear sky"), VFloat (lit "18.5"))
   /\ history_store (data sample_world)
   /\ @traverse _ _ (@Coordinator.history_line ascii_runtime)
        (entries_of (data sample_world) 7)
      = Ok [lit "City: Oslo, Description: No description, Temp: No temperature data"
            ++ degree_sign ++ lit "C"])
  /\ replies
       (snd (@Coordinator.handle_history ascii_runtime paris_message
               (snd (@Coordinator.handle_message ascii_runtime
                       (always paris_payload) paris_message sample_world))))
     = [lit "Weather in Paris:" ++ newline ++ lit "Clear sky" ++ newline
        ++ lit "Temperature: 18.5" ++ degree_sign ++ lit "C" ++ newline;
        lit "City: Oslo, Description: No description, Temp: No temperature data"
        ++ degree_sign ++ lit "C" ++ newline
        ++ lit "City: Paris, Description: clear sky, Temp: 18.5"
        ++ degree_sign ++ lit "C"].
Proof.
  split; [repeat split; exact sample_world_is_history_store|].
  rewrite (@history_shows_recorded_request ascii_runtime
             (always paris_payload) paris_message sample_world
             [(KStr (lit "cod"), VInt 200);
              (KStr (lit "weather"),
               VList [VDict [(KStr (lit "description"), VStr (lit "clear sky"))]]);
              (KStr (lit "main"),
               VDict [(KStr (lit "temp"), VFloat (lit "18.5"))])]
             (VStr (lit "clear sky")) (VFloat (lit "18.5"))
             [lit "City: Oslo, Description: No description, Temp: No temperature data"
              ++ degree_sign ++ lit "C"]
             eq_refl eq_refl eq_refl sample_world_is_history_store eq_refl).
  reflexivity.
Defined.

(** ** A successful current-weather request, from request to reply *)

Section SuccessfulRequest.
Context {R : Runtime}.

(** X19: when the response has the status 200, the fields the reply shows
    and a description that is a string, and the file can be written,
    [handle_message] returns normally after exactly these steps: one
    request for the text as typed, the entry appended to the user's
    history, the file rewritten from the whole store, and one reply of
    three lines: the text as typed, the capitalized description and the
    temperature followed by the degree sign and C. *)
Theorem handle_message_success p u w d s temperature :
  p CurrentWeather (Coordinator.message_text u) = Ok (VDict d) ->
  eq_200 (field d "cod" VNone) = true ->
  message_fields (VDict d) = Ok (VStr s, temperature) ->
  history_store (data w) ->
  file w <> Denied ->
  let store :=
    dict_set (data w) (KInt (Coordinator.effective_user_id u))
      (VList (entries_of (data w) (Coordinator.effective_user_id u)
              ++ [DataStorage.entry (Coordinator.message_text u) (VDict d)])) in
  Coordinator.handle_message p u w
  = (Ok tt,
     mkWorld store (Document (Json.dump (VDict store)))
       (replies w
        ++ [lit "Weather in " ++ Coordinator.message_text u ++ lit ":"
            ++ newline ++ capitalize s ++ newline
            ++ lit "Temperature: " ++ format temperature ++ degree_sign
            ++ lit "C" ++ newline])
       (requests w ++ [(CurrentWeather, Coordinator.message_text u)])).
Proof.
  intros Hp Hcod Hfields Hd Hf store.
  rewrite (handle_message_run p u w Hp). cbv zeta. rewrite Hcod, Hfields.
  set (w1 := add_request w CurrentWeather (Coordinator.message_text u)).
  assert (Hd1 : history_store (data w1)) by exact Hd.
  rewrite (@save_weather_request_run w1 (Coordinator.effective_user_id u)
             (Coordinator.message_text u) (VDict d) Hd1).
  rewrite save_data_result by exact Hf.
  reflexivity.
Qed.

End SuccessfulRequest.

Lemma handle_message_success_witness :
  (always paris_payload CurrentWeather (Coordinator.message_text paris_message)
   = Ok paris_payload
   /\ message_fields paris_payload
      = Ok (VStr (lit "clear sky"), VFloat (lit "18.5"))
   /\ history_store (data empty_world)
   /\ file empty_world <> Denied)
  /\ @Coordinator.handle_message ascii_runtime (always paris_payload)
       paris_message empty_world
     = (Ok tt,
        mkWorld
          [(KInt 7, VList [DataStorage.entry (lit "Paris") paris_payload])]
          (Document
             (Json.dump
                (VDict
                   [(KInt 7,
                     VList [DataStorage.entry (lit "Paris") paris_payload])])))
          [lit "Weather in Paris:" ++ newline ++ lit "Clear sky" ++ newline
           ++ lit "Temperature: 18.5" ++ degree_sign ++ lit "C" ++ newline]
          [(CurrentWeather, lit "Paris")]).
Proof.
  assert (Hf : file empty_world <> Denied) by discriminate.
  split; [repeat split; [exact empty_store_is_history_store|exact Hf]|].
  exact (@handle_message_success ascii_runtime (always paris_payload)
           paris_message empty_world
           [(KStr (lit "cod"), VInt 200);
            (KStr (lit "weather"),
             VList [VDict [(KStr (lit "description"), VStr (lit "clear sky"))]]);
            (KStr (lit "main"),
             VDict [(KStr (lit "temp"), VFloat (lit "18.5"))])]
           (lit "clear sky") (VFloat (lit "18.5"))
           eq_refl eq_refl eq_refl empty_store_is_history_store Hf).
Defined.

(** ** Three more: round trip, placeholders, growth of the history *)

(** X12: a store whose keys are all strings, none of them twice in one
    dict, is read back from the file exactly as it was saved: every lookup
    gives after the reload what it gave before. *)
Theorem save_then_load_keeps_string_keyed_store w :
  file w <> Denied ->
  json_shaped (VDict (data w)) = true ->
  exists d',
    DataStorage._load_data (file (snd (DataStorage._save_data w)))
    = Ok (VDict d')
    /\ d' = data w
    /\ forall k, dict_get d' k = dict_get (data w) k.
Proof.
  intros Hf Hshape. exists (data w).
  split; [now apply reload_string_keyed_store_aux|]. auto.
Qed.

Section MoreOnHistory.
Context {R : Runtime}.

(** The line of an entry whose payload lacks fields: the description is
    the first weather element's, the temperature the ['main'] object's,
    and each is its placeholder when the key that leads to it is absent. *)
Lemma history_line_defaults city wd :
  (dict_get wd (KStr (lit "weather")) = None
   \/ exists d0 rest,
        dict_get wd (KStr (lit "weather")) = Some (VList (VDict d0 :: rest))) ->
  (dict_get wd (KStr (lit "main")) = None
   \/ exists m, dict_get wd (KStr (lit "main")) = Some (VDict m)) ->
  exists description temp,
    Coordinator.history_line (DataStorage.entry city (VDict wd))
    = Ok (lit "City: " ++ city ++ lit ", Description: "
          ++ format description ++ lit ", Temp: " ++ format temp
          ++ degree_sign ++ lit "C")
    /\ (dict_get wd (KStr (lit "weather")) = None ->
        description = VStr (lit "No description"))
    /\ (forall d0 rest,
          dict_get wd (KStr (lit "weather")) = Some (VList (VDict d0 :: rest)) ->
          description = field d0 "description" (VStr (lit "No description")))
    /\ (dict_get wd (KStr (lit "main")) = None ->
        temp = VStr (lit "No temperature data"))
    /\ (forall m,
          dict_get wd (KStr (lit "main")) = Some (VDict m) ->
          temp = field m "temp" (VStr (lit "No temperature data"))).
Proof.
  intros Hw Hm.
  unfold Coordinator.history_line, DataStorage.entry.
  change (getitem_str
            (VDict [(KStr (lit "city"), VStr city);
                    (KStr (lit "weather"), VDict wd)]) (lit "city"))
    with (@Ok value (VStr city)).
  change (getitem_str
            (VDict [(KStr (lit "city"), VStr city);
                    (KStr (lit "weather"), VDict wd)]) (lit "weather"))
    with (@Ok value (VDict wd)).
  cbv [and_then]. unfold method_get at 1.
  destruct Hw as [Hw|(d0 & rest & Hw)]; rewrite Hw;
    destruct Hm as [Hm|(m & Hm)].
  all: cbv [getitem_0]; unfold method_get at 2; rewrite Hm.
  all: unfold method_get, Coordinator.no_description,
         Coordinator.no_temperature.
  - exists (VStr (lit "No description")), (VStr (lit "No temperature data")).
    split; [reflexivity|]. repeat split; intros; congruence.
  - exists (VStr (lit "No description")),
           (field m "temp" (VStr (lit "No temperature data"))).
    split.
    + unfold field. destruct (dict_get m (KStr (lit "temp"))); reflexivity.
    + repeat split; intros; congruence.
  - exists (field d0 "description" (VStr (lit "No description"))),
           (VStr (lit "No temperature data")).
    split.
    + unfold field.
      destruct (dict_get d0 (KStr (lit "description"))); reflexivity.
    + repeat split; intros; congruence.
  - exists (field d0 "description" (VStr (lit "No description"))),
           (field m "temp" (VStr (lit "No temperature data"))).
    split.
    + unfold field.
      destruct (dict_get d0 (KStr (lit "description")));
        destruct (dict_get m (KStr (lit "temp"))); reflexivity.
    + repeat split; intros; congruence.
Qed.

(** X15: the history command tolerates stored payloads with missing
    fields.  When each entry of the user has a payload in which the
    weather list is absent or starts with an object, and the ['main']
    object is absent or an object, the command returns normally with one
    reply: one line for each entry, in which "No description" stands for
    an absent weather list or an absent description, and "No temperature
    data" for an absent ['main'] object or an absent temperature. *)
Theorem handle_history_tolerates_missing_fields u w :
  history_store (data w) ->
  (forall e, In e (entries_of (data w) (Coordinator.effective_user_id u)) ->
     exists city wd,
       e = DataStorage.entry city (VDict wd)
       /\ (dict_get wd (KStr (lit "weather")) = None
           \/ exists d0 rest,
                dict_get wd (KStr (lit "weather"))
                = Some (VList (VDict d0 :: rest)))
       /\ (dict_get wd (KStr (lit "main")) = None
           \/ exists m, dict_get wd (KStr (lit "main")) = Some (VDict m))) ->
  fst (Coordinator.handle_history u w) = Ok tt
  /\ exists t,
       replies (snd (Coordinator.handle_history u w)) = replies w ++ [t]
       /\ (entries_of (data w) (Coordinator.effective_user_id u) <> [] ->
           exists lines,
             t = join newline lines
             /\ Forall2
                  (fun e line =>
                     exists city wd description temp,
                       e = DataStorage.entry city (VDict wd)
                       /\ line
                          = lit "City: " ++ city ++ lit ", Description: "
                            ++ format description ++ lit ", Temp: "
                            ++ format temp ++ degree_sign ++ lit "C"
                       /\ (dict_get wd (KStr (lit "weather")) = None ->
                           description = VStr (lit "No description"))
                       /\ (forall d0 rest,
                             dict_get wd (KStr (lit "weather"))
                             = Some (VList (VDict d0 :: rest)) ->
                             description
                             = field d0 "description"
                                 (VStr (lit "No description")))
                       /\ (dict_get wd (KStr (lit "main")) = None ->
                           temp = VStr (lit "No temperature data"))
                       /\ (forall m,
                             dict_get wd (KStr (lit "main")) = Some (VDict m) ->
                             temp
                             = field m "temp"
                                 (VStr (lit "No temperature data"))))
                  (entries_of (data w) (Coordinator.effective_user_id u))
                  lines).
Proof.
  intros Hd Hall. rewrite handle_history_run by assumption.
  destruct (entries_of _ _) as [|e0 es] eqn:He.
  { simpl. split; [reflexivity|]. eexists. split; [reflexivity|]. congruence. }
  destruct (traverse_total Coordinator.history_line (e0 :: es)) as [lines Hl].
  { intros e Hin. destruct (Hall e Hin) as (city & wd & -> & Hw & Hm).
    destruct (history_line_defaults city wd Hw Hm)
      as (description & temp & Hline & _).
    eauto. }
  rewrite Hl. split; [reflexivity|]. eexists. split; [reflexivity|].
  intros _. exists lines. split; [reflexivity|].
  pose proof (traverse_Forall2 _ _ Hl) as HF.
  clear Hl He. revert Hall. induction HF as [|e line es' ls Hline _ IH];
    intros Hall; constructor.
  - destruct (Hall e (or_introl eq_refl)) as (city & wd & -> & Hw & Hm).
    destruct (history_line_defaults city wd Hw Hm)
      as (description & temp & Hline' & H1 & H2 & H3 & H4).
    rewrite Hline' in Hline. injection Hline as <-.
    exists city, wd, description, temp. auto 10.
  - apply IH. intros e' Hin. apply Hall. now right.
Qed.

(** X16: the history of a user only grows, and only through the user's
    own successful current-weather requests.  After any sequence of
    events it is what it was at the start, every entry at its place,
    followed by one entry for each such request in the order of the
    requests; with no text message in the sequence it is unchanged. *)
Theorem run_history_only_grows es w u :
  history_store (data w) ->
  entries_of (data (Coordinator.run es w)) u
  = entries_of (data w) u ++ flat_map (fun e => recorded_by e u) es
  /\ (forall i e, nth_error (entries_of (data w) u) i = Some e ->
        nth_error (entries_of (data (Coordinator.run es w)) u) i = Some e)
  /\ ((forall e, In e es ->
         match e with Coordinator.TextMessage _ _ => False | _ => True end) ->
      entries_of (data (Coordinator.run es w)) u = entries_of (data w) u).
Proof.
  intros Hd. destruct (run_entries es w u Hd) as [_ Hent].
  split; [exact Hent|]. split.
  - intros i e Hi. rewrite Hent, nth_error_app1; auto.
    apply nth_error_Some. congruence.
  - intros Hno. rewrite Hent.
    assert (Hnil : flat_map (fun e => recorded_by e u) es = []).
    { clear Hent. induction es as [|e es IH]; simpl; auto.
      rewrite IH by (intros; apply Hno; now right).
      pose proof (Hno e (or_introl eq_refl)) as He.
      destruct e; simpl; auto. contradiction. }
    now rewrite Hnil, app_nil_r.
Qed.

End MoreOnHistory.

Lemma save_then_load_keeps_string_keyed_store_witness :
  (file restarted_world <> Denied
   /\ json_shaped (VDict (data restarted_world)) = true)
  /\ exists d',
       DataStorage._load_data
         (file (snd (DataStorage._save_data restarted_world)))
       = Ok (VDict d')
       /\ d' = data restarted_world.
Proof.
  assert (Hf : file restarted_world <> Denied) by discriminate.
  split; [split; [exact Hf|reflexivity]|].
  destruct (@save_then_load_keeps_string_keyed_store restarted_world Hf
              eq_refl) as (d' & Hload & Hsame & _).
  exists d'. split; assumption.
Defined.

Lemma sample_world_entries_tolerated :
  forall e, In e (entries_of (data sample_world) 7) ->
    exists city wd,
      e = DataStorage.entry city (VDict wd)
      /\ (dict_get wd (KStr (lit "weather")) = None
          \/ exists d0 rest,
               dict_get wd (KStr (lit "weather"))
               = Some (VList (VDict d0 :: rest)))
      /\ (dict_get wd (KStr (lit "main")) = None
          \/ exists m, dict_get wd (KStr (lit "main")) = Some (VDict m)).
Proof.
  intros e [<-|[]].
  exists (lit "Oslo"), [(KStr (lit "cod"), VInt 200)].
  split; [reflexivity|]. split; left; reflexivity.
Defined.

Lemma handle_history_tolerates_missing_fields_witness :
  history_store (data sample_world)
  /\ fst (@Coordinator.handle_history ascii_runtime paris_message sample_world)
     = Ok tt
  /\ (exists t,
        replies (snd (@Coordinator.handle_history ascii_runtime paris_message
                        sample_world))
        = replies sample_world ++ [t])
  /\ replies (snd (@Coordinator.handle_history ascii_runtime paris_message
                     sample_world))
     = replies sample_world
       ++ [lit "City: Oslo, Description: No description, Temp: No temperature data"
           ++ degree_sign ++ lit "C"].
Proof.
  split; [exact sample_world_is_history_store|].
  destruct (@handle_history_tolerates_missing_fields ascii_runtime
              paris_message sample_world sample_world_is_history_store
              sample_world_entries_tolerated) as (Hok & t & Ht & _).
  split; [exact Hok|]. split; [exists t; exact Ht|reflexivity].
Defined.

Lemma run_history_only_grows_witness :
  history_store (data empty_world)
  /\ entries_of
       (data (@Coordinator.run ascii_runtime
                [Coordinator.TextMessage (always paris_payload) paris_message;
                 Coordinator.HistoryCommand paris_message;
                 Coordinator.ForecastCommand (always sample_forecast)
                   oslo_forecast_command;
                 Coordinator.TextMessage (always payload_status_only)
                   paris_message]
                empty_world)) 7
     = [DataStorage.entry (lit "Paris") paris_payload].
Proof.
  split; [exact empty_store_is_history_store|].
  exact (proj1 (@run_history_only_grows ascii_runtime
                  [Coordinator.TextMessage (always paris_payload) paris_message;
                   Coordinator.HistoryCommand paris_message;
                   Coordinator.ForecastCommand (always sample_forecast)
                     oslo_forecast_command;
                   Coordinator.TextMessage (always payload_status_only)
                     paris_message]
                  empty_world 7 empty_store_is_history_store)).
Defined.
